(** * texture.h: a shallow embedding of the physical texture library

    The header defines one struct, [Texture], two initialisers
    ([initTexture_f], [initTexture_i]), a CSV writer ([writeTexture]), a CSV
    reader ([readTexture]) and a destructor ([freeTexture]).

    Data model of the embedding (LP64, as on x86-64 and AArch64 Linux):
    - [uint16_t], [uint32_t] and [size_t] values are integers of [Z] in
      [0, 2^16), [0, 2^32) and [0, 2^64); conversions to one of these types
      are written out as [mod];
    - [int] is 32 bits wide.  The product [w * h] of two [uint16_t] operands
      is computed in [int] after the integer promotions, and a product above
      [INT_MAX] is a signed overflow: undefined behaviour (C11 6.5p5);
    - [float] is IEEE 754 binary32 with round-to-nearest-even, evaluated in
      its own format ([FLT_EVAL_METHOD == 0]); the standard library's
      [SpecFloat] operations are instantiated at precision 24, emax 128;
    - the heap is a list of blocks indexed by block identifier; a pointer is
      [NULL] or a block identifier; a freed block stays in the list as
      [None], so that dangling pointers and double frees are visible;
    - the file system maps paths to file contents;
    - every function is a computation in a state-and-outcome monad whose
      outcomes are a normal return, a failed [assert] (process abort;
      assertions are enabled, [NDEBUG] is not defined) and undefined
      behaviour;
    - the allocator serves a request when enough memory is left, a request
      of zero bytes included, for which it returns a pointer to a block of
      zero cells (the choice of glibc among those C11 7.22.3 allows). *)

From Stdlib Require Import ZArith List Ascii String Lia.
From Stdlib Require Import Floats.SpecFloat.
From stdpp Require Import base option list gmap strings.

Local Open Scope Z_scope.

(** ** C integer types *)

Definition UINT16_MAX : Z := 65535.
Definition UINT32_MAX : Z := 4294967295.
Definition INT_MAX : Z := 2147483647.
Definition INT_MIN : Z := -2147483648.
Definition SIZE_MAX : Z := 18446744073709551615.
Definition ULONG_MAX : Z := 18446744073709551615.

(** [sizeof(uint32_t)] *)
Definition sizeof_uint32 : Z := 4.

Definition to_uint16 (z : Z) : Z := z mod (UINT16_MAX + 1).
Definition to_uint32 (z : Z) : Z := z mod (UINT32_MAX + 1).
Definition to_size_t (z : Z) : Z := z mod (SIZE_MAX + 1).

Definition is_uint16 (z : Z) : Prop := 0 <= z <= UINT16_MAX.
Definition is_uint32 (z : Z) : Prop := 0 <= z <= UINT32_MAX.

(** ** Outcomes and the state *)

Inductive outcome (A : Type) : Type :=
| Ok (a : A)          (* the call returns *)
| AssertFail          (* an [assert] fails: the process aborts *)
| Undefined.          (* undefined behaviour *)
Arguments Ok {A} a.
Arguments AssertFail {A}.
Arguments Undefined {A}.

(** A pointer to [uint32_t]: null, or the start of heap block [b]. *)
Inductive ptr : Type :=
| NULL
| Ptr (b : nat).

(** typedef struct { uint16_t w, h; uint32_t *data; } Texture; *)
Record Texture : Type := mkTexture {
  w : Z;
  h : Z;
  data : ptr
}.

Record State : Type := mkState {
  heap : list (option (list Z));   (* block id -> cells, [None] once freed *)
  avail : Z;                       (* bytes the allocator can still serve *)
  junk : nat -> Z;                 (* what fresh [malloc] memory contains *)
  files : gmap string (list ascii);(* path -> contents *)
  writable : string -> bool        (* can [fopen(path, "w")] succeed *)
}.

Definition M (A : Type) : Type := State -> outcome (A * State).

Definition ret {A} (a : A) : M A := fun st => Ok (a, st).

Definition bind {A B} (m : M A) (k : A -> M B) : M B :=
  fun st =>
    match m st with
    | Ok (a, st') => k a st'
    | AssertFail => AssertFail
    | Undefined => Undefined
    end.

Notation "x <- m ;; k" := (bind m (fun x => k))
  (at level 60, m at next level, right associativity).
Notation "m ;;; k" := (bind m (fun _ => k))
  (at level 60, right associativity).

(** Lifting of a pure outcome. *)
Definition lift {A} (o : outcome A) : M A :=
  fun st =>
    match o with
    | Ok a => Ok (a, st)
    | AssertFail => AssertFail
    | Undefined => Undefined
    end.

(** assert(c) with assertions enabled. *)
Definition assert (c : bool) : M unit :=
  fun st => if c then Ok (tt, st) else AssertFail.

Definition is_null (p : ptr) : bool :=
  match p with NULL => true | Ptr _ => false end.

(** [a * b] on two promoted [uint16_t] operands, in [int]. *)
Definition int_mul (a b : Z) : outcome Z :=
  if (INT_MIN <=? a * b) && (a * b <=? INT_MAX) then Ok (a * b) else Undefined.

(** ** The allocator *)

Definition set_heap (hp : list (option (list Z))) (av : Z) (st : State) : State :=
  mkState hp av (junk st) (files st) (writable st).

Definition set_files (fs : gmap string (list ascii)) (st : State) : State :=
  mkState (heap st) (avail st) (junk st) fs (writable st).

(** A request is served when the byte count does not overflow [size_t] and
    fits the memory that is left.  A request of zero bytes that is served
    returns a block of length zero (as glibc does). *)
Definition can_alloc (st : State) (bytes : Z) : bool :=
  (bytes <=? SIZE_MAX) && (bytes <=? avail st).

(** calloc(nmemb, size) for [size = sizeof(uint32_t)]: zeroed cells. *)
Definition calloc (nmemb size : Z) : M ptr :=
  fun st =>
    if can_alloc st (nmemb * size) then
      Ok (Ptr (length (heap st)),
          set_heap (heap st ++ [Some (replicate (Z.to_nat nmemb) 0)])
                   (avail st - nmemb * size) st)
    else Ok (NULL, st).

(** malloc(bytes), the block seen as an array of [uint32_t]: its cells hold
    whatever the memory held before. *)
Definition malloc (bytes : Z) : M ptr :=
  fun st =>
    if can_alloc st bytes then
      Ok (Ptr (length (heap st)),
          set_heap (heap st ++
                      [Some (map (fun i => to_uint32 (junk st i))
                                 (seq 0 (Z.to_nat (bytes / sizeof_uint32))))])
                   (avail st - bytes) st)
    else Ok (NULL, st).

(** free(p): nothing for a null pointer, undefined for a pointer that is
    not the start of a live block. *)
Definition free (p : ptr) : M unit :=
  fun st =>
    match p with
    | NULL => Ok (tt, st)
    | Ptr b =>
        match heap st !! b with
        | Some (Some cells) =>
            Ok (tt, set_heap (<[b := None]> (heap st))
                             (avail st + sizeof_uint32 * Z.of_nat (length cells)) st)
        | _ => Undefined
        end
    end.

(** The cells of the live block [p] points to. *)
Definition block (st : State) (p : ptr) : option (list Z) :=
  match p with
  | NULL => None
  | Ptr b => match heap st !! b with Some (Some cells) => Some cells | _ => None end
  end.

(** [p[i]] as an rvalue. *)
Definition load (p : ptr) (i : nat) : M Z :=
  fun st =>
    match block st p with
    | Some cells =>
        match cells !! i with
        | Some v => Ok (v, st)
        | None => Undefined
        end
    | None => Undefined
    end.

(** [p[i] = v] for a [uint32_t] cell. *)
Definition store (p : ptr) (i : nat) (v : Z) : M unit :=
  fun st =>
    match p, block st p with
    | Ptr b, Some cells =>
        if decide (i < length cells)%nat then
          Ok (tt, set_heap (<[b := Some (<[i := to_uint32 v]> cells)]> (heap st))
                           (avail st) st)
        else Undefined
    | _, _ => Undefined
    end.

(** [a[i]] for an array the caller passes in: reading past its end is
    undefined. *)
Definition index {A} (a : list A) (i : nat) : M A :=
  fun st =>
    match a !! i with
    | Some v => Ok (v, st)
    | None => Undefined
    end.

(** for (size_t i = i0; i < i0 + k; ++i) acc = body(i, acc);
    [acc] carries the local variables the body updates. *)
Fixpoint for_loop {L} (k : nat) (i : nat) (body : nat -> L -> M L) (acc : L) : M L :=
  match k with
  | O => ret acc
  | S k' => acc' <- body i acc ;; for_loop k' (S i) body acc'
  end.

(** ** Floating point: binary32 *)

Definition float : Type := spec_float.
Definition prec32 : Z := 24.
Definition emax32 : Z := 128.

(** Conversion of an integer to [float] (C11 6.3.1.4p2), to nearest even. *)
Definition float_of_int (n : Z) : float := binary_normalize prec32 emax32 n 0 false.

(** [x * y] on two [float] operands. *)
Definition float_mul (x y : float) : float := SFmul prec32 emax32 x y.

(** The integral part of a finite float, toward zero. *)
Definition float_trunc (x : float) : option Z :=
  match x with
  | S754_zero _ => Some 0
  | S754_finite s m e =>
      let mag := Z.shiftl (Z.pos m) e in
      Some (if s then - mag else mag)
  | S754_infinity _ | S754_nan => None
  end.

(** (uint32_t)x for a float [x]: defined only when the integral part is a
    [uint32_t] value (C11 6.3.1.4p1). *)
Definition uint32_of_float (x : float) : outcome Z :=
  match float_trunc x with
  | Some z => if (0 <=? z) && (z <=? UINT32_MAX) then Ok z else Undefined
  | None => Undefined
  end.

(** ** Decimal text *)

Definition comma : ascii := ","%char.

Definition digit_char (d : Z) : ascii := ascii_of_N (Z.to_N (48 + d)).

Definition is_digit (c : ascii) : bool :=
  (48 <=? Z.of_N (N_of_ascii c)) && (Z.of_N (N_of_ascii c) <=? 57).

Definition digit_val (c : ascii) : Z := Z.of_N (N_of_ascii c) - 48.

(** isspace in the C locale: space, \t, \n, \v, \f, \r. *)
Definition is_space (c : ascii) : bool :=
  let n := Z.of_N (N_of_ascii c) in
  (n =? 32) || ((9 <=? n) && (n <=? 13)).

(** The digits of [n], most significant first, in front of [acc]. *)
Fixpoint dec_aux (fuel : nat) (n : Z) (acc : list ascii) : list ascii :=
  match fuel with
  | O => acc
  | S fuel' =>
      let acc' := digit_char (n mod 10) :: acc in
      if n <? 10 then acc' else dec_aux fuel' (n / 10) acc'
  end.

(** What printf writes for a [%u] or [%hu] conversion of [n]. *)
Definition print_uint (n : Z) : list ascii :=
  dec_aux (S (Z.to_nat (Z.log2 n))) n [].

(** The longest prefix of digits, accumulated in base ten. *)
Fixpoint scan_digits (acc : Z) (s : list ascii) : Z * list ascii :=
  match s with
  | c :: r => if is_digit c then scan_digits (10 * acc + digit_val c) r else (acc, s)
  | [] => (acc, [])
  end.

Fixpoint skip_space (s : list ascii) : list ascii :=
  match s with
  | c :: r => if is_space c then skip_space r else s
  | [] => []
  end.

(** The result of one conversion specification of fscanf. *)
Inductive conv : Type :=
| Conv (v : Z) (rest : list ascii)   (* a value was converted and is assigned *)
| NoConv (rest : list ascii)         (* input or matching failure *)
| ConvUB.                            (* the value does not fit the object *)

(** An optional sign in front of the digits. *)
Definition scan_sign (s : list ascii) : bool * list ascii :=
  match s with
  | c :: r =>
      if Ascii.eqb c "-"%char then (true, r)
      else if Ascii.eqb c "+"%char then (false, r)
      else (false, s)
  | [] => (false, [])
  end.

(** The value strtoul gives for the magnitude [m]: clamped to [ULONG_MAX],
    negated in [unsigned long] after a minus sign. *)
Definition strtoul_value (neg : bool) (m : Z) : Z :=
  if ULONG_MAX <? m then ULONG_MAX
  else if neg then (- m) mod (ULONG_MAX + 1) else m.

(** A [%u] ([max = UINT32_MAX]) or [%hu] ([max = UINT16_MAX]) conversion:
    white space is skipped, then an optional sign and a nonempty run of
    digits are read; a value the object cannot hold is undefined behaviour
    (C11 7.21.6.2p10). *)
Definition scan_unsigned (max : Z) (s : list ascii) : conv :=
  let '(neg, s2) := scan_sign (skip_space s) in
  match s2 with
  | c :: _ =>
      if is_digit c then
        let '(m, rest) := scan_digits 0 s2 in
        let v := strtoul_value neg m in
        if v <=? max then Conv v rest else ConvUB
      else NoConv s2
  | [] => NoConv []
  end.

(** An ordinary character of the format: it must be the next character. *)
Definition match_char (c : ascii) (s : list ascii) : option (list ascii) :=
  match s with
  | c' :: r => if Ascii.eqb c c' then Some r else None
  | [] => None
  end.

(** ** Streams *)

Inductive fmode : Type := ReadMode | WriteMode.

(** An open stream: for reading, [fbuf] is the input not yet consumed; for
    writing, the output not yet flushed. *)
Record FILE : Type := mkFILE {
  fpath : string;
  fmd : fmode;
  fbuf : list ascii
}.

(** fopen(path, "r") and fopen(path, "w"); [None] is the null stream. *)
Definition fopen (path : string) (mode : fmode) : M (option FILE) :=
  fun st =>
    match mode with
    | ReadMode =>
        match files st !! path with
        | Some c => Ok (Some (mkFILE path ReadMode c), st)
        | None => Ok (None, st)
        end
    | WriteMode =>
        if writable st path then
          Ok (Some (mkFILE path WriteMode []), set_files (<[path := []]> (files st)) st)
        else Ok (None, st)
    end.

Definition fclose (fp : FILE) : M unit :=
  fun st =>
    match fmd fp with
    | ReadMode => Ok (tt, st)
    | WriteMode => Ok (tt, set_files (<[fpath fp := fbuf fp]> (files st)) st)
    end.

Definition fputs (text : list ascii) (fp : FILE) : FILE :=
  mkFILE (fpath fp) (fmd fp) (fbuf fp ++ text).

Definition set_fbuf (s : list ascii) (fp : FILE) : FILE :=
  mkFILE (fpath fp) (fmd fp) s.

(** fprintf(fp, "%hu,%hu,", a, b) *)
Definition fprintf_hu_hu (fp : FILE) (a b : Z) : FILE :=
  fputs (print_uint (to_uint16 a) ++ [comma] ++ print_uint (to_uint16 b) ++ [comma]) fp.

(** fprintf(fp, "%u,", a) *)
Definition fprintf_u (fp : FILE) (a : Z) : FILE :=
  fputs (print_uint (to_uint32 a) ++ [comma]) fp.

(** fscanf(fp, "%hu,%hu,", &texture->w, &texture->h): the directives run in
    order and the call stops at the first one that fails, leaving the
    objects of the later conversions as they were. *)
Definition fscanf_hu_hu (fp : FILE) (texture : Texture) : outcome (Texture * FILE) :=
  match scan_unsigned UINT16_MAX (fbuf fp) with
  | ConvUB => Undefined
  | NoConv r => Ok (texture, set_fbuf r fp)
  | Conv v1 r1 =>
      let texture := mkTexture v1 (h texture) (data texture) in
      match match_char comma r1 with
      | None => Ok (texture, set_fbuf r1 fp)
      | Some r2 =>
          match scan_unsigned UINT16_MAX r2 with
          | ConvUB => Undefined
          | NoConv r3 => Ok (texture, set_fbuf r3 fp)
          | Conv v2 r3 =>
              let texture := mkTexture (w texture) v2 (data texture) in
              match match_char comma r3 with
              | None => Ok (texture, set_fbuf r3 fp)
              | Some r4 => Ok (texture, set_fbuf r4 fp)
              end
          end
      end
  end.

(** fscanf(fp, "%u,", &p[i]) *)
Definition fscanf_u (fp : FILE) (p : ptr) (i : nat) : M FILE :=
  match scan_unsigned UINT32_MAX (fbuf fp) with
  | ConvUB => lift Undefined
  | NoConv r => ret (set_fbuf r fp)
  | Conv v r1 =>
      store p i v ;;;
      match match_char comma r1 with
      | None => ret (set_fbuf r1 fp)
      | Some r2 => ret (set_fbuf r2 fp)
      end
  end.

(** ** The library *)

(** The size the loops and allocations use: [w * h] in [int], converted to
    [size_t].  The operands do not change between the evaluations of the
    expression, so it is evaluated once. *)
Definition extent (w0 h0 : Z) : M Z :=
  n <- lift (int_mul w0 h0) ;; ret (to_size_t n).

(** (uint32_t)(UINT32_MAX * x): the usual arithmetic conversions turn the
    [unsigned int] constant into a [float], the product is a [float]. *)
Definition scale_sample (x : float) : outcome Z :=
  uint32_of_float (float_mul (float_of_int UINT32_MAX) x).

Definition initTexture_f (w0 h0 : Z) (data0 : list float) : M Texture :=
  n <- extent w0 h0 ;;
  p <- calloc n sizeof_uint32 ;;
  let texture := mkTexture w0 h0 p in
  assert (negb (is_null p)) ;;;
  for_loop (Z.to_nat n) 0
    (fun i _ => x <- index data0 i ;; v <- lift (scale_sample x) ;; store p i v) tt ;;;
  ret texture.

Definition initTexture_i (w0 h0 : Z) (data0 : list Z) : M Texture :=
  n <- extent w0 h0 ;;
  p <- calloc n sizeof_uint32 ;;
  let texture := mkTexture w0 h0 p in
  assert (negb (is_null p)) ;;;
  for_loop (Z.to_nat n) 0
    (fun i _ => x <- index data0 i ;; store p i x) tt ;;;
  ret texture.

Definition writeTexture (texture : Texture) (path : string) : M unit :=
  fp <- fopen path WriteMode ;;
  match fp with
  | None => assert false
  | Some fp =>
      let fp := fprintf_hu_hu fp (w texture) (h texture) in
      n <- extent (w texture) (h texture) ;;
      fp <- for_loop (Z.to_nat n) 0
              (fun i fp => x <- load (data texture) i ;; ret (fprintf_u fp x)) fp ;;
      fclose fp
  end.

Definition readTexture (texture : Texture) (path : string) : M Texture :=
  fp <- fopen path ReadMode ;;
  match fp with
  | None => assert false ;;; ret texture
  | Some fp =>
      r <- lift (fscanf_hu_hu fp texture) ;;
      let '(texture, fp) := r in
      size <- extent (w texture) (h texture) ;;
      p <- malloc (to_size_t (size * sizeof_uint32)) ;;
      let texture := mkTexture (w texture) (h texture) p in
      assert (negb (is_null p)) ;;;
      fp <- for_loop (Z.to_nat size) 0 (fun i fp => fscanf_u fp p i) fp ;;
      fclose fp ;;;
      ret texture
  end.

Definition freeTexture (texture : Texture) : M Texture :=
  free (data texture) ;;;
  ret (mkTexture (w texture) (h texture) NULL).

(** ** Vocabulary of the statements *)

(** The value of a run of digits read after the accumulator [acc]. *)
Definition dec_value_from (acc : Z) (ds : list ascii) : Z :=
  fold_left (fun a c => 10 * a + digit_val c) ds acc.

Definition dec_value (ds : list ascii) : Z := dec_value_from 0 ds.

(** A decimal field: at least one character, digits only. *)
Definition decimal_field (f : list ascii) : Prop :=
  f <> [] /\ Forall (fun c => is_digit c = true) f.

(** Text that a run of digits can stop at: the end, or a non-digit. *)
Definition no_digit_start (s : list ascii) : Prop :=
  match s with
  | [] => True
  | c :: _ => is_digit c = false
  end.

(** Fields separated by commas. *)
Fixpoint sep_fields (fs : list (list ascii)) : list ascii :=
  match fs with
  | [] => []
  | [f] => f
  | f :: fs' => f ++ comma :: sep_fields fs'
  end.

(** The record of the file format: every field is followed by a comma. *)
Definition csv_fields (fs : list (list ascii)) : list ascii :=
  flat_map (fun f => f ++ [comma]) fs.

Definition csv_record (w0 h0 : Z) (cells : list Z) : list ascii :=
  csv_fields (print_uint w0 :: print_uint h0 :: map print_uint cells).

(** A well-formed record: decimal fields separated by commas, the first two
    [uint16_t] values, the others [uint32_t] values; after the last field
    comes [tail], which is empty or starts with a character that is not a
    digit (the comma that ends the record the writer produces, a newline). *)
Definition record_fields (contents fw fh : list ascii) (fds : list (list ascii))
    (tail : list ascii) : Prop :=
  contents = sep_fields (fw :: fh :: fds) ++ tail /\
  decimal_field fw /\ decimal_field fh /\ Forall decimal_field fds /\
  no_digit_start tail /\
  dec_value fw <= UINT16_MAX /\ dec_value fh <= UINT16_MAX /\
  Forall (fun f => dec_value f <= UINT32_MAX) fds.

(** The binary32 values 0.0, 1.0, 0.5 and 0.25. *)
Definition float_0 : float := S754_zero false.
Definition float_1 : float := S754_finite false 8388608 (-23).
Definition float_half : float := S754_finite false 8388608 (-24).
Definition float_quarter : float := S754_finite false 8388608 (-25).

(** A machine with an empty heap, [bytes] bytes of free memory whose cells
    hold 0xdeadbeef, no files, and every path writable. *)
Definition fresh_state (bytes : Z) : State :=
  mkState [] bytes (fun _ => 3735928559) ∅ (fun _ => true).

(** A machine whose heap holds one block, the data of a 2x2 texture. *)
Definition demo_cells : list Z := [0; 4294967295; 2147483647; 1073741823].
Definition demo_state : State :=
  mkState [Some demo_cells] 4096 (fun _ => 3735928559) ∅ (fun _ => true).
Definition demo_texture : Texture := mkTexture 2 2 (Ptr 0).

(** Block [b] of the heap replaced by [cells]. *)
Definition set_block (b : nat) (cells : list Z) (st : State) : State :=
  set_heap (<[b := Some cells]> (heap st)) (avail st) st.

(** The state after a successful allocation of a block holding [cells]. *)
Definition alloc_block (cells : list Z) (bytes : Z) (st : State) : State :=
  set_heap (heap st ++ [Some cells]) (avail st - bytes) st.

(** A populated texture: its extents are [uint16_t] values and its data
    pointer is the start of a live block of [w * h] cells of [uint32_t]. *)
Definition populated (st : State) (t : Texture) (cells : list Z) : Prop :=
  is_uint16 (w t) /\ is_uint16 (h t) /\
  block st (data t) = Some cells /\
  Z.of_nat (length cells) = w t * h t /\
  Forall is_uint32 cells.

(** ** Vocabulary of the further properties *)

(** What the cells of a fresh [malloc] block of [n] cells hold. *)
Definition junk_cells (st : State) (n : nat) : list Z :=
  map (fun i => to_uint32 (junk st i)) (seq 0 n).

(** The integral part, toward zero, of the real number
    [(-1)^s * m * 2^e * 2^32]: the finite float [(s, m, e)] times 2^32. *)
Definition scaled_trunc (s : bool) (m : positive) (e : Z) : Z :=
  let mag := Z.shiftl (Z.pos m) (e + 32) in
  if s then - mag else mag.

(** A sample the scaling is defined on: a zero, or a finite binary32 whose
    product with 2^32 truncates to a [uint32_t] value.  For a positive
    sample this is [x < 1.0]. *)
Definition sample_in_range (x : float) : bool :=
  match x with
  | S754_zero _ => true
  | S754_finite s m e =>
      valid_binary prec32 emax32 x &&
      (0 <=? scaled_trunc s m e) && (scaled_trunc s m e <=? UINT32_MAX)
  | S754_infinity _ | S754_nan => false
  end.

(** The value the scaling gives on a sample in range. *)
Definition sample_value (x : float) : Z :=
  match x with
  | S754_finite s m e => scaled_trunc s m e
  | _ => 0
  end.

(** ** Monad steps *)

Lemma bind_Ok {A B} (m : M A) (k : A -> M B) st a st' :
  m st = Ok (a, st') -> bind m k st = k a st'.
Proof. intros E. unfold bind. now rewrite E. Qed.

Lemma bind_Undefined {A B} (m : M A) (k : A -> M B) st :
  m st = Undefined -> bind m k st = Undefined.
Proof. intros E. unfold bind. now rewrite E. Qed.

Lemma bind_AssertFail {A B} (m : M A) (k : A -> M B) st :
  m st = AssertFail -> bind m k st = AssertFail.
Proof. intros E. unfold bind. now rewrite E. Qed.

(** A loop whose body keeps an invariant returns, with the invariant. *)
Lemma for_loop_inv {L} (I : nat -> L -> State -> Prop) (body : nat -> L -> M L) :
  forall k i acc st,
    I i acc st ->
    (forall j a s, (i <= j < i + k)%nat -> I j a s ->
       exists a' s', body j a s = Ok (a', s') /\ I (S j) a' s') ->
    exists a' s', for_loop k i body acc st = Ok (a', s') /\ I (i + k)%nat a' s'.
Proof.
  induction k as [|k IH]; intros i acc st Hi Hstep; simpl.
  - exists acc, st. split; [reflexivity|]. now rewrite Nat.add_0_r.
  - destruct (Hstep i acc st) as (a1 & s1 & E1 & I1); [lia | assumption |].
    destruct (IH (S i) a1 s1 I1) as (a2 & s2 & E2 & I2).
    { intros j a s Hj. apply Hstep. lia. }
    exists a2, s2. split.
    + now rewrite (bind_Ok _ _ _ _ _ E1).
    + now replace (i + S k)%nat with (S i + k)%nat by lia.
Qed.

(** ** Decimal text: printing and scanning *)

Lemma digit_char_spec d :
  0 <= d < 10 -> is_digit (digit_char d) = true /\ digit_val (digit_char d) = d.
Proof.
  intros Hd.
  assert (d = 0 \/ d = 1 \/ d = 2 \/ d = 3 \/ d = 4 \/
          d = 5 \/ d = 6 \/ d = 7 \/ d = 8 \/ d = 9) as Hc by lia.
  repeat (destruct Hc as [-> | Hc]); try subst d; split; reflexivity.
Qed.

Lemma dec_aux_digits fuel : forall n acc,
  0 <= n ->
  Forall (fun c => is_digit c = true) acc ->
  Forall (fun c => is_digit c = true) (dec_aux fuel n acc).
Proof.
  induction fuel as [|fuel IH]; intros n acc Hn Hacc; simpl; [assumption|].
  assert (Forall (fun c => is_digit c = true) (digit_char (n mod 10) :: acc)) as Hacc'.
  { constructor; [|assumption]. apply digit_char_spec. apply Z.mod_pos_bound. lia. }
  destruct (n <? 10); [assumption|].
  apply IH; [|assumption]. apply Z.div_pos; lia.
Qed.

Lemma dec_aux_nonempty fuel n acc : dec_aux (S fuel) n acc <> [].
Proof.
  revert n acc. induction fuel as [|fuel IH]; intros n acc.
  - simpl. destruct (n <? 10); discriminate.
  - change (dec_aux (S (S fuel)) n acc)
      with (if n <? 10 then digit_char (n mod 10) :: acc
            else dec_aux (S fuel) (n / 10) (digit_char (n mod 10) :: acc)).
    destruct (n <? 10); [discriminate | apply IH].
Qed.

Lemma dec_aux_value fuel : forall n acc,
  0 <= n < 10 ^ Z.of_nat fuel ->
  dec_value (dec_aux fuel n acc) = dec_value_from n acc.
Proof.
  induction fuel as [|fuel IH]; intros n acc Hn.
  - simpl in Hn. assert (n = 0) as -> by lia. reflexivity.
  - simpl dec_aux.
    assert (0 <= n mod 10 < 10) as Hm by (apply Z.mod_pos_bound; lia).
    destruct (digit_char_spec _ Hm) as [_ Hv].
    destruct (Z.ltb_spec n 10) as [Hlt | Hge].
    + unfold dec_value, dec_value_from. simpl. rewrite Hv.
      rewrite Z.mod_small by lia. reflexivity.
    + rewrite IH.
      * unfold dec_value_from. simpl. rewrite Hv.
        f_equal. pose proof (Z.div_mod n 10). lia.
      * split; [apply Z.div_pos; lia|].
        apply Z.div_lt_upper_bound; [lia|].
        rewrite Nat2Z.inj_succ, Z.pow_succ_r in Hn by lia. lia.
Qed.

Lemma print_uint_fuel n : 0 <= n -> n < 10 ^ Z.of_nat (S (Z.to_nat (Z.log2 n))).
Proof.
  intros Hn. rewrite Nat2Z.inj_succ, Z2Nat.id by apply Z.log2_nonneg.
  destruct (Z.eq_dec n 0) as [-> | Hnz]; [reflexivity|].
  pose proof (Z.log2_spec n ltac:(lia)) as [_ Hlt].
  eapply Z.lt_le_trans; [exact Hlt|].
  apply Z.pow_le_mono_l. lia.
Qed.

Lemma print_uint_field n : 0 <= n -> decimal_field (print_uint n).
Proof.
  intros Hn. split.
  - apply dec_aux_nonempty.
  - apply dec_aux_digits; [assumption | constructor].
Qed.

Lemma print_uint_value n : 0 <= n -> dec_value (print_uint n) = n.
Proof.
  intros Hn. unfold print_uint. rewrite dec_aux_value; [reflexivity|].
  split; [assumption | now apply print_uint_fuel].
Qed.

Lemma scan_digits_app ds : forall acc rest,
  Forall (fun c => is_digit c = true) ds ->
  no_digit_start rest ->
  scan_digits acc (ds ++ rest) = (dec_value_from acc ds, rest).
Proof.
  induction ds as [|c ds IH]; intros acc rest Hds Hrest.
  - simpl. destruct rest as [|c r]; [reflexivity|].
    simpl in *. now rewrite Hrest.
  - inversion Hds as [|? ? Hc Hds']; subst. simpl. rewrite Hc.
    now apply IH.
Qed.

Lemma is_digit_range c :
  is_digit c = true -> 48 <= Z.of_N (N_of_ascii c) <= 57.
Proof. unfold is_digit. intros H. apply andb_true_iff in H. lia. Qed.

Lemma digit_not_space c : is_digit c = true -> is_space c = false.
Proof.
  intros H. apply is_digit_range in H. unfold is_space.
  apply orb_false_iff. split; [lia|].
  apply andb_false_iff. right. lia.
Qed.

Lemma digit_not_char c (k : ascii) :
  is_digit c = true -> is_digit k = false -> Ascii.eqb c k = false.
Proof.
  intros Hc Hk. destruct (Ascii.eqb_spec c k) as [-> | _]; [congruence | reflexivity].
Qed.

Lemma comma_no_digit s : no_digit_start (comma :: s).
Proof. reflexivity. Qed.

Lemma dec_value_from_nonneg ds : forall acc,
  0 <= acc -> Forall (fun c => is_digit c = true) ds -> 0 <= dec_value_from acc ds.
Proof.
  induction ds as [|c ds IH]; intros acc Hacc Hds; [assumption|].
  inversion Hds as [|? ? Hc Hds']; subst.
  unfold dec_value_from. simpl. apply IH; [|assumption].
  apply is_digit_range in Hc. unfold digit_val. lia.
Qed.

(** A conversion in front of a decimal field reads the whole field. *)
Lemma scan_unsigned_field max f rest :
  decimal_field f ->
  no_digit_start rest ->
  dec_value f <= max ->
  max <= ULONG_MAX ->
  scan_unsigned max (f ++ rest) = Conv (dec_value f) rest.
Proof.
  intros [Hne Hds] Hrest Hmax Hul.
  destruct f as [|c f']; [congruence|].
  inversion Hds as [|? ? Hc Hds']; subst.
  unfold scan_unsigned.
  change ((c :: f') ++ rest) with (c :: (f' ++ rest)).
  assert (skip_space (c :: f' ++ rest) = c :: f' ++ rest) as ->.
  { simpl. now rewrite (digit_not_space c Hc). }
  assert (scan_sign (c :: f' ++ rest) = (false, c :: f' ++ rest)) as ->.
  { unfold scan_sign.
    rewrite (digit_not_char c "-"%char Hc eq_refl).
    now rewrite (digit_not_char c "+"%char Hc eq_refl). }
  rewrite Hc.
  change (c :: f' ++ rest) with ((c :: f') ++ rest).
  rewrite (scan_digits_app (c :: f') 0 rest Hds Hrest).
  fold (dec_value (c :: f')).
  assert (0 <= dec_value (c :: f')) as Hnn.
  { apply dec_value_from_nonneg; [lia | assumption]. }
  unfold strtoul_value.
  destruct (Z.ltb_spec ULONG_MAX (dec_value (c :: f'))) as [Hbig | _]; [lia|].
  destruct (Z.leb_spec (dec_value (c :: f')) max) as [_ | Hbig]; [reflexivity | lia].
Qed.

Lemma sep_fields_next f g fs tail :
  sep_fields (f :: g :: fs) ++ tail = f ++ comma :: (sep_fields (g :: fs) ++ tail).
Proof. simpl. now rewrite <- app_assoc. Qed.

Lemma sep_fields_last (f : list ascii) tail : sep_fields [f] ++ tail = f ++ tail.
Proof. reflexivity. Qed.

Lemma csv_fields_sep fs :
  fs <> [] -> csv_fields fs = sep_fields fs ++ [comma].
Proof.
  induction fs as [|f fs IH]; intros Hne; [congruence|].
  destruct fs as [|g fs].
  - simpl. now rewrite app_nil_r.
  - rewrite sep_fields_next. unfold csv_fields in *. 
    change (flat_map (fun f0 => f0 ++ [comma]) (f :: g :: fs))
      with ((f ++ [comma]) ++ flat_map (fun f0 => f0 ++ [comma]) (g :: fs)).
    rewrite IH by discriminate. now rewrite <- app_assoc.
Qed.

(** ** The heap *)

Lemma block_Some st b cells :
  block st (Ptr b) = Some cells -> heap st !! b = Some (Some cells).
Proof.
  unfold block. destruct (heap st !! b) as [[c|]|]; congruence.
Qed.

Lemma block_set_block st b cells0 cells :
  block st (Ptr b) = Some cells0 ->
  block (set_block b cells st) (Ptr b) = Some cells.
Proof.
  intros H. apply block_Some in H. apply lookup_lt_Some in H.
  unfold block, set_block, set_heap. simpl.
  now rewrite list_lookup_insert_eq.
Qed.

Lemma set_block_twice st b c1 c2 :
  set_block b c2 (set_block b c1 st) = set_block b c2 st.
Proof.
  unfold set_block, set_heap. simpl. now rewrite list_insert_insert_eq.
Qed.

Lemma block_alloc_block st cells bytes :
  block (alloc_block cells bytes st) (Ptr (length (heap st))) = Some cells.
Proof.
  unfold block, alloc_block, set_heap. simpl.
  rewrite lookup_app_r by lia. now rewrite Nat.sub_diag.
Qed.

Lemma set_block_alloc_block st c1 c2 bytes :
  set_block (length (heap st)) c2 (alloc_block c1 bytes st) = alloc_block c2 bytes st.
Proof.
  unfold set_block, alloc_block, set_heap. simpl.
  rewrite insert_app_r_alt by lia. now rewrite Nat.sub_diag.
Qed.

Lemma fill_step (new cells0 : list Z) (j : nat) v :
  length new = j -> (j < length cells0)%nat ->
  <[j := v]> (new ++ drop j cells0) = (new ++ [v]) ++ drop (S j) cells0.
Proof.
  intros Hlen Hj.
  destruct (lookup_lt_is_Some_2 cells0 j Hj) as [x Hx].
  rewrite insert_app_r_alt by lia.
  rewrite Hlen, Nat.sub_diag, (drop_S _ _ _ Hx). simpl.
  now rewrite <- app_assoc.
Qed.

(** A store into a block that is being filled from the left. *)
Lemma store_fill st b cells0 (new : list Z) j v :
  block st (Ptr b) = Some cells0 ->
  length new = j -> (j < length cells0)%nat ->
  store (Ptr b) j v (set_block b (new ++ drop j cells0) st) =
  Ok (tt, set_block b ((new ++ [to_uint32 v]) ++ drop (S j) cells0) st).
Proof.
  intros Hb Hlen Hj. unfold store.
  rewrite (block_set_block _ _ _ _ Hb).
  destruct (decide (j < length (new ++ drop j cells0))%nat) as [_ | Hn].
  - rewrite fill_step by assumption.
    change (set_heap (<[b := Some ?c]> (heap ?s)) (avail ?s) ?s) with (set_block b c s).
    now rewrite set_block_twice.
  - exfalso. apply Hn. rewrite length_app, length_drop. lia.
Qed.

Lemma set_block_id st b cells :
  block st (Ptr b) = Some cells -> set_block b cells st = st.
Proof.
  intros H. apply block_Some in H. unfold set_block, set_heap.
  rewrite list_insert_id by assumption. now destruct st.
Qed.

Lemma to_uint32_id v : is_uint32 v -> to_uint32 v = v.
Proof. unfold is_uint32, to_uint32, UINT32_MAX. intros H. apply Z.mod_small. lia. Qed.

Lemma to_uint16_id v : is_uint16 v -> to_uint16 v = v.
Proof. unfold is_uint16, to_uint16, UINT16_MAX. intros H. apply Z.mod_small. lia. Qed.

Lemma map_to_uint32_id l : Forall is_uint32 l -> map to_uint32 l = l.
Proof.
  induction 1 as [|x l Hx _ IH]; [reflexivity|].
  simpl. now rewrite to_uint32_id, IH.
Qed.

(** The size expression [w * h]. *)
Lemma extent_run w0 h0 st :
  is_uint16 w0 -> is_uint16 h0 ->
  extent w0 h0 st = if INT_MAX <? w0 * h0 then Undefined else Ok (w0 * h0, st).
Proof.
  unfold is_uint16, UINT16_MAX. intros Hw Hh.
  unfold extent, bind, lift, int_mul, ret.
  assert (0 <= w0 * h0) by nia.
  destruct (Z.leb_spec INT_MIN (w0 * h0)) as [_ | Hm]; [|unfold INT_MIN in Hm; lia].
  destruct (Z.leb_spec (w0 * h0) INT_MAX) as [Hle | Hgt]; simpl.
  - destruct (Z.ltb_spec INT_MAX (w0 * h0)); [lia|].
    unfold to_size_t, SIZE_MAX. rewrite Z.mod_small; [reflexivity|].
    unfold INT_MAX in Hle. lia.
  - destruct (Z.ltb_spec INT_MAX (w0 * h0)); [reflexivity | lia].
Qed.

(** ** initTexture_i *)

Lemma calloc_run n size st :
  calloc n size st =
  if can_alloc st (n * size)
  then Ok (Ptr (length (heap st)),
           alloc_block (replicate (Z.to_nat n) 0) (n * size) st)
  else Ok (NULL, st).
Proof. reflexivity. Qed.

Lemma copy_loop_run st b cells0 (data0 : list Z) :
  block st (Ptr b) = Some cells0 ->
  length cells0 = length data0 ->
  for_loop (length data0) 0
    (fun i _ => x <- index data0 i ;; store (Ptr b) i x) tt st =
  Ok (tt, set_block b (map to_uint32 data0) st).
Proof.
  intros Hb Hlen.
  destruct (for_loop_inv
    (fun j (_ : unit) s =>
       s = set_block b (map to_uint32 (take j data0) ++ drop j cells0) st)
    (fun i _ => x <- index data0 i ;; store (Ptr b) i x)
    (length data0) 0%nat tt st) as (a & s & E & I).
  - simpl. rewrite drop_0. symmetry. now apply set_block_id.
  - intros j [] s Hj ->.
    destruct (lookup_lt_is_Some_2 data0 j ltac:(lia)) as [x Hx].
    exists tt. eexists. split.
    + unfold bind, index. rewrite Hx.
      apply store_fill; [assumption | | lia].
      rewrite length_map, length_take. lia.
    + rewrite (take_S_r _ _ _ Hx), map_app. reflexivity.
  - destruct a. rewrite E. simpl in I. subst s.
    rewrite firstn_all, <- Hlen, drop_all, app_nil_r. reflexivity.
Qed.

Lemma initTexture_i_run st w0 h0 (data0 : list Z) :
  is_uint16 w0 -> is_uint16 h0 ->
  Z.of_nat (length data0) = w0 * h0 ->
  initTexture_i w0 h0 data0 st =
  if INT_MAX <? w0 * h0 then Undefined
  else if can_alloc st (w0 * h0 * sizeof_uint32)
       then Ok (mkTexture w0 h0 (Ptr (length (heap st))),
                alloc_block (map to_uint32 data0) (w0 * h0 * sizeof_uint32) st)
       else AssertFail.
Proof.
  intros Hw Hh Hlen. unfold initTexture_i.
  unfold bind at 1. rewrite (extent_run _ _ _ Hw Hh).
  destruct (INT_MAX <? w0 * h0); [reflexivity|].
  unfold bind at 1. rewrite calloc_run.
  destruct (can_alloc st (w0 * h0 * sizeof_uint32)); [|reflexivity].
  unfold bind at 1. simpl assert. cbv beta iota.
  rewrite <- Hlen, Nat2Z.id.
  unfold bind at 1.
  rewrite (copy_loop_run _ (length (heap st)) (replicate (length data0) 0)).
  - unfold ret. now rewrite set_block_alloc_block.
  - apply block_alloc_block.
  - apply length_replicate.
Qed.

(** ** writeTexture *)

Lemma fputs_fputs a b fp : fputs b (fputs a fp) = fputs (a ++ b) fp.
Proof. unfold fputs. simpl. now rewrite <- app_assoc. Qed.

Lemma block_set_files st fs p : block (set_files fs st) p = block st p.
Proof. reflexivity. Qed.

Lemma print_loop_run st p cells fp :
  block st p = Some cells ->
  for_loop (length cells) 0
    (fun i fp => x <- load p i ;; ret (fprintf_u fp x)) fp st =
  Ok (fputs (flat_map (fun v => print_uint (to_uint32 v) ++ [comma]) cells) fp, st).
Proof.
  intros Hb.
  destruct (for_loop_inv
    (fun j fp' s =>
       s = st /\
       fp' = fputs (flat_map (fun v => print_uint (to_uint32 v) ++ [comma])
                             (take j cells)) fp)
    (fun i fp => x <- load p i ;; ret (fprintf_u fp x))
    (length cells) 0%nat fp st) as (fp' & s & E & [-> ->]).
  - split; [reflexivity|]. simpl. unfold fputs. rewrite app_nil_r. now destruct fp.
  - intros j a s Hj [-> ->].
    destruct (lookup_lt_is_Some_2 cells j ltac:(lia)) as [x Hx].
    eexists. exists st. split.
    + unfold bind, load, ret. rewrite Hb, Hx. reflexivity.
    + split; [reflexivity|]. unfold fprintf_u. rewrite fputs_fputs.
      rewrite (take_S_r _ _ _ Hx), flat_map_app. simpl.
      now rewrite app_nil_r.
  - rewrite E. simpl. now rewrite firstn_all.
Qed.

Lemma flat_map_map {A B C} (f : B -> list C) (g : A -> B) l :
  flat_map f (map g l) = flat_map (fun x => f (g x)) l.
Proof. induction l as [|x l IH]; simpl; [reflexivity | now rewrite IH]. Qed.

Lemma flat_map_ext_Forall {A B} (P : A -> Prop) (f g : A -> list B) l :
  Forall P l -> (forall x, P x -> f x = g x) -> flat_map f l = flat_map g l.
Proof.
  intros Hl Hfg. induction Hl as [|x l Hx _ IH]; simpl; [reflexivity|].
  now rewrite IH, (Hfg x Hx).
Qed.

Lemma writeTexture_run st t path cells :
  populated st t cells ->
  writeTexture t path st =
  if writable st path
  then if INT_MAX <? w t * h t then Undefined
       else Ok (tt, set_files (<[path := csv_record (w t) (h t) cells]> (files st)) st)
  else AssertFail.
Proof.
  intros (Hw & Hh & Hb & Hlen & Hcells).
  unfold writeTexture. unfold bind at 1. unfold fopen.
  destruct (writable st path) eqn:Hwr; [|reflexivity].
  unfold bind at 1. rewrite (extent_run _ _ _ Hw Hh).
  destruct (INT_MAX <? w t * h t); [reflexivity|].
  rewrite <- Hlen, Nat2Z.id.
  unfold bind at 1. rewrite (print_loop_run _ _ cells) by exact Hb.
  unfold fclose, fprintf_hu_hu, set_files. simpl.
  rewrite insert_insert_eq. do 3 f_equal.
  unfold csv_record, csv_fields. simpl.
  rewrite (to_uint16_id _ Hw), (to_uint16_id _ Hh), flat_map_map.
  rewrite (flat_map_ext_Forall is_uint32 _
             (fun x => print_uint x ++ [comma]) cells Hcells).
  - f_equal. rewrite <- !app_assoc. simpl. now rewrite <- !app_assoc.
  - intros x Hx. now rewrite to_uint32_id.
Qed.

(** ** readTexture *)

Lemma match_char_comma s : match_char comma (comma :: s) = Some s.
Proof. reflexivity. Qed.

Lemma dec_value_uint32 f :
  decimal_field f -> dec_value f <= UINT32_MAX -> to_uint32 (dec_value f) = dec_value f.
Proof.
  intros [_ Hds] Hle. apply to_uint32_id. split; [|assumption].
  apply dec_value_from_nonneg; [lia | assumption].
Qed.

(** The header conversions on a record of decimal fields. *)
Lemma fscanf_hu_hu_fields fp t fw fh fds tail :
  fbuf fp = sep_fields (fw :: fh :: fds) ++ tail ->
  decimal_field fw -> decimal_field fh ->
  no_digit_start tail ->
  dec_value fw <= UINT16_MAX -> dec_value fh <= UINT16_MAX ->
  exists fp',
    fscanf_hu_hu fp t = Ok (mkTexture (dec_value fw) (dec_value fh) (data t), fp') /\
    fmd fp' = fmd fp /\
    (fds <> [] -> fbuf fp' = sep_fields fds ++ tail).
Proof.
  intros Hbuf Hfw Hfh Htail Hw Hh.
  unfold fscanf_hu_hu. rewrite Hbuf, sep_fields_next.
  rewrite (scan_unsigned_field _ fw _ Hfw (comma_no_digit _) Hw) by (now compute).
  rewrite match_char_comma.
  destruct fds as [|g fds].
  - rewrite sep_fields_last.
    rewrite (scan_unsigned_field _ fh _ Hfh Htail Hh) by (now compute).
    destruct (match_char comma tail); eexists; (split; [reflexivity|]);
      (split; [reflexivity | congruence]).
  - rewrite sep_fields_next.
    rewrite (scan_unsigned_field _ fh _ Hfh (comma_no_digit _) Hh) by (now compute).
    rewrite match_char_comma.
    eexists. split; [reflexivity|]. split; [reflexivity|]. intros _. reflexivity.
Qed.

(** The data conversions: [n] fields go to the cells [0 .. n-1]. *)
Lemma scan_loop_run st b cells0 fds tail fp :
  block st (Ptr b) = Some cells0 ->
  (length cells0 <= length fds)%nat ->
  Forall decimal_field fds ->
  Forall (fun f => dec_value f <= UINT32_MAX) fds ->
  no_digit_start tail ->
  (fds <> [] -> fbuf fp = sep_fields fds ++ tail) ->
  exists fp',
    for_loop (length cells0) 0 (fun i fp => fscanf_u fp (Ptr b) i) fp st =
    Ok (fp', set_block b (map dec_value (take (length cells0) fds)) st) /\
    fmd fp' = fmd fp.
Proof.
  intros Hb Hlen Hdec Hmax Htail Hbuf.
  destruct (for_loop_inv
    (fun j fp' s =>
       s = set_block b (map dec_value (take j fds) ++ drop j cells0) st /\
       fmd fp' = fmd fp /\
       ((j < length fds)%nat -> fbuf fp' = sep_fields (drop j fds) ++ tail))
    (fun i fp => fscanf_u fp (Ptr b) i)
    (length cells0) 0%nat fp st) as (fp' & s & E & (-> & Hmd & _)).
  - split; [|split].
    + simpl. rewrite drop_0. symmetry. now apply set_block_id.
    + reflexivity.
    + intros Hlt. rewrite drop_0. apply Hbuf. intros ->. simpl in Hlt. lia.
  - intros j a s Hj (-> & Hmd & Hin).
    destruct (lookup_lt_is_Some_2 fds j ltac:(lia)) as [f Hf].
    pose proof (Forall_lookup_1 _ _ _ _ Hdec Hf) as Hfd.
    pose proof (Forall_lookup_1 _ _ _ _ Hmax Hf) as Hfm. simpl in Hfm.
    specialize (Hin ltac:(lia)). rewrite (drop_S _ _ _ Hf) in Hin.
    assert (length (map dec_value (take j fds)) = j) as Hnew.
    { rewrite length_map, length_take. lia. }
    assert (forall rest r',
      no_digit_start rest -> fbuf a = f ++ rest ->
      (match_char comma rest = Some r' \/ match_char comma rest = None /\ r' = rest) ->
      fscanf_u a (Ptr b) j
        (set_block b (map dec_value (take j fds) ++ drop j cells0) st) =
      Ok (set_fbuf r' a,
          set_block b (map dec_value (take (S j) fds) ++ drop (S j) cells0) st)) as Hstep.
    { intros rest r' Hrest Hbufa Hm. unfold fscanf_u. rewrite Hbufa.
      rewrite (scan_unsigned_field _ f _ Hfd Hrest Hfm) by (now compute).
      unfold bind. rewrite (store_fill _ _ _ _ _ _ Hb Hnew) by lia.
      rewrite (dec_value_uint32 _ Hfd Hfm), (take_S_r _ _ _ Hf), map_app.
      destruct Hm as [-> | [-> ->]]; reflexivity. }
    destruct (drop (S j) fds) as [|g fs'] eqn:Hdrop.
    + rewrite sep_fields_last in Hin.
      assert (length fds <= S j)%nat as Hend.
      { apply (f_equal length) in Hdrop. rewrite length_drop in Hdrop.
        simpl in Hdrop. lia. }
      destruct (match_char comma tail) as [r'|] eqn:Hm.
      * eexists _, _. split; [apply (Hstep tail r' Htail Hin); now left|].
        split; [reflexivity|]. split; [exact Hmd | lia].
      * eexists _, _. split; [apply (Hstep tail tail Htail Hin); now right|].
        split; [reflexivity|]. split; [exact Hmd | lia].
    + rewrite sep_fields_next in Hin.
      eexists _, _.
      split; [apply (Hstep _ (sep_fields (g :: fs') ++ tail) (comma_no_digit _) Hin);
              left; apply match_char_comma|].
      split; [reflexivity|]. split; [exact Hmd|]. intros _. reflexivity.
  - exists fp'. split; [|exact Hmd].
    rewrite E. simpl. now rewrite drop_all, app_nil_r.
Qed.

Lemma malloc_run bytes st :
  malloc bytes st =
  if can_alloc st bytes
  then Ok (Ptr (length (heap st)),
           alloc_block (map (fun i => to_uint32 (junk st i))
                            (seq 0 (Z.to_nat (bytes / sizeof_uint32)))) bytes st)
  else Ok (NULL, st).
Proof. reflexivity. Qed.

Lemma dec_value_uint16 f :
  decimal_field f -> dec_value f <= UINT16_MAX -> is_uint16 (dec_value f).
Proof.
  intros [_ Hds] Hle. split; [|assumption].
  apply dec_value_from_nonneg; [lia | assumption].
Qed.

Lemma readTexture_run st t path contents fw fh fds tail :
  files st !! path = Some contents ->
  record_fields contents fw fh fds tail ->
  dec_value fw * dec_value fh <= Z.of_nat (length fds) ->
  readTexture t path st =
  if INT_MAX <? dec_value fw * dec_value fh then Undefined
  else if can_alloc st (dec_value fw * dec_value fh * sizeof_uint32)
       then Ok (mkTexture (dec_value fw) (dec_value fh) (Ptr (length (heap st))),
                alloc_block
                  (map dec_value (take (Z.to_nat (dec_value fw * dec_value fh)) fds))
                  (dec_value fw * dec_value fh * sizeof_uint32) st)
       else AssertFail.
Proof.
  intros Hfile (-> & Hfw & Hfh & Hfds & Htail & Hw & Hh & Hmax) Hn.
  pose proof (dec_value_uint16 _ Hfw Hw) as Hw16.
  pose proof (dec_value_uint16 _ Hfh Hh) as Hh16.
  unfold readTexture. unfold bind at 1. unfold fopen. rewrite Hfile.
  destruct (fscanf_hu_hu_fields
              (mkFILE path ReadMode (sep_fields (fw :: fh :: fds) ++ tail))
              t fw fh fds tail eq_refl Hfw Hfh Htail Hw Hh)
    as (fp1 & E1 & Hmd1 & Hbuf1).
  unfold bind at 1. rewrite E1. simpl lift. cbv beta iota.
  unfold bind at 1. cbn [w h data]. rewrite (extent_run _ _ _ Hw16 Hh16).
  destruct (Z.ltb_spec INT_MAX (dec_value fw * dec_value fh)) as [|Hfit];
    [reflexivity|].
  set (n := dec_value fw * dec_value fh) in *.
  assert (0 <= n) as Hn0.
  { apply Z.mul_nonneg_nonneg; [apply Hw16 | apply Hh16]. }
  assert (to_size_t (n * sizeof_uint32) = n * sizeof_uint32) as ->.
  { unfold to_size_t, SIZE_MAX, sizeof_uint32. apply Z.mod_small.
    unfold INT_MAX in Hfit. lia. }
  unfold bind at 1. rewrite malloc_run.
  destruct (can_alloc st (n * sizeof_uint32)); [|reflexivity].
  unfold bind at 1. simpl assert. cbv beta iota.
  rewrite (Z.div_mul n sizeof_uint32) by (unfold sizeof_uint32; lia).
  set (cells0 := map (fun i => to_uint32 (junk st i)) (seq 0 (Z.to_nat n))).
  assert (length cells0 = Z.to_nat n) as Hlen0.
  { unfold cells0. now rewrite length_map, length_seq. }
  destruct (scan_loop_run (alloc_block cells0 (n * sizeof_uint32) st)
              (length (heap st)) cells0 fds tail fp1)
    as (fp2 & E2 & Hmd2); try assumption.
  - apply block_alloc_block.
  - lia.
  - rewrite Hlen0 in E2. unfold bind at 1. rewrite E2.
    unfold bind, fclose. rewrite Hmd2, Hmd1. simpl.
    unfold ret. now rewrite set_block_alloc_block.
Qed.

(** ** initTexture_f *)

Lemma scale_sample_uint32 x v : scale_sample x = Ok v -> is_uint32 v.
Proof.
  unfold scale_sample, uint32_of_float.
  destruct (float_trunc _) as [z|]; [|discriminate].
  destruct (Z.leb_spec 0 z); destruct (Z.leb_spec z UINT32_MAX); simpl;
    intros E; inversion E; subst; split; assumption.
Qed.

Lemma scale_loop_run st b cells0 (data0 : list float) (vals : list Z) :
  block st (Ptr b) = Some cells0 ->
  length cells0 = length data0 ->
  Forall2 (fun x v => scale_sample x = Ok v) data0 vals ->
  for_loop (length data0) 0
    (fun i _ => x <- index data0 i ;; v <- lift (scale_sample x) ;; store (Ptr b) i v)
    tt st =
  Ok (tt, set_block b vals st).
Proof.
  intros Hb Hlen Hvals.
  pose proof (Forall2_length _ _ _ Hvals) as Hlv.
  destruct (for_loop_inv
    (fun j (_ : unit) s => s = set_block b (take j vals ++ drop j cells0) st)
    (fun i _ => x <- index data0 i ;; v <- lift (scale_sample x) ;; store (Ptr b) i v)
    (length data0) 0%nat tt st) as (a & s & E & I).
  - simpl. rewrite drop_0. symmetry. now apply set_block_id.
  - intros j [] s Hj ->.
    destruct (lookup_lt_is_Some_2 data0 j ltac:(lia)) as [x Hx].
    destruct (Forall2_lookup_l _ _ _ _ _ Hvals Hx) as (v & Hv & Hxv).
    exists tt. eexists. split.
    + unfold bind at 1. unfold index. rewrite Hx.
      unfold bind at 1. rewrite Hxv. simpl lift. cbv beta iota.
      rewrite store_fill; [|assumption | rewrite length_take; lia | lia].
      rewrite (to_uint32_id v) by (eapply scale_sample_uint32; eassumption).
      reflexivity.
    + now rewrite (take_S_r _ _ _ Hv).
  - destruct a. rewrite E. simpl in I. subst s.
    rewrite Hlv, firstn_all, <- Hlv, <- Hlen, drop_all, app_nil_r. reflexivity.
Qed.

Lemma initTexture_f_run st w0 h0 (data0 : list float) (vals : list Z) :
  is_uint16 w0 -> is_uint16 h0 ->
  Z.of_nat (length data0) = w0 * h0 ->
  Forall2 (fun x v => scale_sample x = Ok v) data0 vals ->
  initTexture_f w0 h0 data0 st =
  if INT_MAX <? w0 * h0 then Undefined
  else if can_alloc st (w0 * h0 * sizeof_uint32)
       then Ok (mkTexture w0 h0 (Ptr (length (heap st))),
                alloc_block vals (w0 * h0 * sizeof_uint32) st)
       else AssertFail.
Proof.
  intros Hw Hh Hlen Hvals. unfold initTexture_f.
  unfold bind at 1. rewrite (extent_run _ _ _ Hw Hh).
  destruct (INT_MAX <? w0 * h0); [reflexivity|].
  unfold bind at 1. rewrite calloc_run.
  destruct (can_alloc st (w0 * h0 * sizeof_uint32)); [|reflexivity].
  unfold bind at 1. simpl assert. cbv beta iota.
  rewrite <- Hlen, Nat2Z.id.
  unfold bind at 1.
  rewrite (scale_loop_run _ (length (heap st)) (replicate (length data0) 0) data0 vals).
  - unfold ret. now rewrite set_block_alloc_block.
  - apply block_alloc_block.
  - apply length_replicate.
  - assumption.
Qed.

(** ** freeTexture *)

Lemma freeTexture_run t st :
  freeTexture t st =
  match data t with
  | NULL => Ok (mkTexture (w t) (h t) NULL, st)
  | Ptr b =>
      match block st (Ptr b) with
      | Some cells =>
          Ok (mkTexture (w t) (h t) NULL,
              set_heap (<[b := None]> (heap st))
                       (avail st + sizeof_uint32 * Z.of_nat (length cells)) st)
      | None => Undefined
      end
  end.
Proof.
  unfold freeTexture, bind, free, block, ret.
  destruct (data t) as [|b]; [reflexivity|].
  destruct (heap st !! b) as [[cells|]|]; reflexivity.
Qed.

(** * The claims *)

(** C4: for every width, height and array of [uint32_t] samples of length
    [width * height], after [initTexture_i] the texture's width and height
    are the inputs and its data buffer holds exactly the samples, unscaled.
    The call returns whenever the product fits [int] and the allocation is
    served. *)
Theorem initTexture_i_copies st w0 h0 (data0 : list Z) :
  is_uint16 w0 -> is_uint16 h0 ->
  Forall is_uint32 data0 ->
  Z.of_nat (length data0) = w0 * h0 ->
  (forall t st', initTexture_i w0 h0 data0 st = Ok (t, st') ->
     w t = w0 /\ h t = h0 /\ block st' (data t) = Some data0) /\
  (w0 * h0 <= INT_MAX -> can_alloc st (w0 * h0 * sizeof_uint32) = true ->
     exists t st', initTexture_i w0 h0 data0 st = Ok (t, st')).
Proof.
  intros Hw Hh Hdata Hlen.
  rewrite (initTexture_i_run _ _ _ _ Hw Hh Hlen), (map_to_uint32_id _ Hdata).
  split.
  - intros t st' E.
    destruct (INT_MAX <? w0 * h0); [discriminate|].
    destruct (can_alloc st (w0 * h0 * sizeof_uint32)); [|discriminate].
    inversion E; subst; clear E. cbn [w h data].
    rewrite block_alloc_block. repeat split.
  - intros Hfit Hmem. rewrite Hmem.
    destruct (Z.ltb_spec INT_MAX (w0 * h0)); [lia|]. eauto.
Qed.

Lemma initTexture_i_copies_witness :
  exists t st',
    initTexture_i 2 2 [0; 4294967295; 2147483647; 1073741823] (fresh_state 4096)
      = Ok (t, st') /\
    w t = 2 /\ h t = 2 /\
    block st' (data t) = Some [0; 4294967295; 2147483647; 1073741823].
Proof.
  destruct (initTexture_i_copies (fresh_state 4096) 2 2
              [0; 4294967295; 2147483647; 1073741823]) as [Hpost Hret].
  - unfold is_uint16, UINT16_MAX. lia.
  - unfold is_uint16, UINT16_MAX. lia.
  - repeat constructor; unfold UINT32_MAX; lia.
  - reflexivity.
  - destruct Hret as (t & st' & E).
    + unfold INT_MAX. lia.
    + reflexivity.
    + exists t, st'. split; [exact E|].
      exact (Hpost t st' E).
Defined.

(** C5: for every file that holds a well-formed record of at least
    [2 + width * height] comma-separated decimal fields, [readTexture] takes
    the first field as the width, the second as the height, and then reads
    exactly [width * height] further fields, in order, into the data buffer:
    cell [i] is the value of field [i + 3] of the file.  The call returns
    whenever the product fits [int] and the allocation is served. *)
Theorem readTexture_parses st t path contents fw fh fds tail :
  files st !! path = Some contents ->
  record_fields contents fw fh fds tail ->
  dec_value fw * dec_value fh <= Z.of_nat (length fds) ->
  (forall t' st', readTexture t path st = Ok (t', st') ->
     w t' = dec_value fw /\ h t' = dec_value fh /\
     exists cells,
       block st' (data t') = Some cells /\
       Z.of_nat (length cells) = dec_value fw * dec_value fh /\
       forall i, (i < length cells)%nat ->
         cells !! i = dec_value <$> (fw :: fh :: fds) !! (i + 2)%nat) /\
  (dec_value fw * dec_value fh <= INT_MAX ->
   can_alloc st (dec_value fw * dec_value fh * sizeof_uint32) = true ->
   exists t' st', readTexture t path st = Ok (t', st')).
Proof.
  intros Hfile Hrec Hn.
  rewrite (readTexture_run _ _ _ _ _ _ _ _ Hfile Hrec Hn).
  destruct Hrec as (_ & Hfw & Hfh & _ & _ & Hw & Hh & _).
  pose proof (dec_value_uint16 _ Hfw Hw) as [Hw0 _].
  pose proof (dec_value_uint16 _ Hfh Hh) as [Hh0 _].
  set (n := dec_value fw * dec_value fh) in *.
  assert (0 <= n) as Hn0 by (apply Z.mul_nonneg_nonneg; assumption).
  split.
  - intros t' st' E.
    destruct (INT_MAX <? n); [discriminate|].
    destruct (can_alloc st (n * sizeof_uint32)); [|discriminate].
    inversion E; subst; clear E. cbn [w h data].
    rewrite block_alloc_block. split; [reflexivity|]. split; [reflexivity|].
    eexists. split; [reflexivity|].
    rewrite length_map, length_take. split; [lia|].
    intros i Hi. replace (i + 2)%nat with (S (S i)) by lia. cbn [lookup list_lookup].
    rewrite list_lookup_fmap, lookup_take_lt by lia. reflexivity.
  - intros Hfit Hmem. rewrite Hmem.
    destruct (Z.ltb_spec INT_MAX n); [lia|]. eauto.
Qed.

Lemma readTexture_parses_witness :
  exists t' st',
    readTexture (mkTexture 0 0 NULL) "t.csv"
      (set_files {[ "t.csv"%string := list_ascii_of_string "2,1,7,65536,9" ]}
                 (fresh_state 64)) = Ok (t', st') /\
    w t' = 2 /\ h t' = 1 /\ block st' (data t') = Some [7; 65536].
Proof.
  destruct (readTexture_parses
              (set_files {[ "t.csv"%string := list_ascii_of_string "2,1,7,65536,9" ]}
                         (fresh_state 64))
              (mkTexture 0 0 NULL) "t.csv"
              (list_ascii_of_string "2,1,7,65536,9")
              (list_ascii_of_string "2") (list_ascii_of_string "1")
              [list_ascii_of_string "7"; list_ascii_of_string "65536";
               list_ascii_of_string "9"] [])
    as [Hpost Hret].
  - reflexivity.
  - unfold record_fields, decimal_field.
    repeat (split; [first [reflexivity | discriminate | exact I
                          | (repeat constructor; discriminate)
                          | (vm_compute; discriminate)] |]).
    repeat constructor; vm_compute; discriminate.
  - vm_compute. discriminate.
  - destruct Hret as (t' & st' & E).
    + vm_compute. discriminate.
    + reflexivity.
    + exists t', st'. split; [exact E|].
      destruct (Hpost t' st' E) as (H1 & H2 & cells & Hb & Hlen & Hcells).
      split; [exact H1|]. split; [exact H2|]. rewrite Hb. f_equal.
      assert (length cells = 2%nat) as Hl2.
      { apply Nat2Z.inj. rewrite Hlen. reflexivity. }
      destruct cells as [|c0 [|c1 [|c2 cells]]]; try discriminate Hl2.
      pose proof (Hcells 0%nat ltac:(simpl; lia)) as E0.
      pose proof (Hcells 1%nat ltac:(simpl; lia)) as E1.
      vm_compute in E0, E1. congruence.
Defined.

(** ** The written record is a well-formed record *)

Lemma csv_record_fields w0 h0 cells :
  is_uint16 w0 -> is_uint16 h0 -> Forall is_uint32 cells ->
  record_fields (csv_record w0 h0 cells)
    (print_uint w0) (print_uint h0) (map print_uint cells) [comma].
Proof.
  intros Hw Hh Hcells. unfold record_fields.
  split; [apply csv_fields_sep; discriminate|].
  split; [apply print_uint_field, Hw|].
  split; [apply print_uint_field, Hh|].
  split.
  { apply Forall_map. eapply Forall_impl; [exact Hcells|].
    intros x Hx. apply print_uint_field, Hx. }
  split; [apply comma_no_digit|].
  rewrite !print_uint_value by (apply Hw || apply Hh).
  split; [apply Hw|]. split; [apply Hh|].
  apply Forall_map. eapply Forall_impl; [exact Hcells|].
  intros x Hx. simpl. rewrite print_uint_value; apply Hx.
Qed.

Lemma map_dec_value_print cells :
  Forall is_uint32 cells -> map dec_value (map print_uint cells) = cells.
Proof.
  induction 1 as [|x l Hx _ IH]; [reflexivity|].
  simpl. rewrite IH, print_uint_value; [reflexivity | apply Hx].
Qed.

(** Reading back what [writeTexture] wrote. *)
Lemma read_after_write st t cells path t0 :
  populated st t cells ->
  readTexture t0 path
    (set_files (<[path := csv_record (w t) (h t) cells]> (files st)) st) =
  if INT_MAX <? w t * h t then Undefined
  else if can_alloc st (w t * h t * sizeof_uint32)
       then Ok (mkTexture (w t) (h t) (Ptr (length (heap st))),
                alloc_block cells (w t * h t * sizeof_uint32)
                  (set_files (<[path := csv_record (w t) (h t) cells]> (files st)) st))
       else AssertFail.
Proof.
  intros (Hw & Hh & Hb & Hlen & Hcells).
  pose proof (csv_record_fields _ _ _ Hw Hh Hcells) as Hrec.
  rewrite (readTexture_run _ t0 path _ _ _ _ _ (lookup_insert_eq _ _ _) Hrec);
    rewrite !print_uint_value by (apply Hw || apply Hh).
  - rewrite <- Hlen, Nat2Z.id.
    rewrite take_ge by (rewrite length_map; lia).
    rewrite (map_dec_value_print _ Hcells). reflexivity.
  - rewrite length_map. lia.
Qed.

(** C1: round trip.  For every populated texture and every path, a
    [writeTexture] followed by a [readTexture] of the same path yields a
    texture with the same width, the same height and the same data, cell by
    cell.  Both calls return whenever the path can be opened for writing,
    the product of the extents fits [int] and the allocation is served. *)
Theorem write_read_roundtrip st t cells path :
  populated st t cells ->
  (forall st1 t0 t' st2,
     writeTexture t path st = Ok (tt, st1) ->
     readTexture t0 path st1 = Ok (t', st2) ->
     w t' = w t /\ h t' = h t /\ block st2 (data t') = Some cells) /\
  (writable st path = true ->
   w t * h t <= INT_MAX ->
   can_alloc st (w t * h t * sizeof_uint32) = true ->
   forall t0, exists st1 t' st2,
     writeTexture t path st = Ok (tt, st1) /\
     readTexture t0 path st1 = Ok (t', st2)).
Proof.
  intros Hpop. rewrite (writeTexture_run _ _ path _ Hpop). split.
  - intros st1 t0 t' st2 Ew Er.
    destruct (writable st path); [|discriminate].
    destruct (INT_MAX <? w t * h t) eqn:Hfit; [discriminate|].
    inversion Ew; subst st1; clear Ew.
    rewrite (read_after_write _ _ _ _ _ Hpop), Hfit in Er.
    destruct (can_alloc st (w t * h t * sizeof_uint32)); [|discriminate].
    inversion Er; subst; clear Er. cbn [w h data].
    split; [reflexivity|]. split; [reflexivity|].
    apply (block_alloc_block (set_files _ st)).
  - intros Hwr Hfit Hmem t0. rewrite Hwr.
    destruct (Z.ltb_spec INT_MAX (w t * h t)) as [|_]; [lia|].
    eexists _, _, _. split; [reflexivity|].
    rewrite (read_after_write _ _ _ _ _ Hpop), Hmem.
    destruct (Z.ltb_spec INT_MAX (w t * h t)) as [|_]; [lia|]. reflexivity.
Qed.

Lemma demo_populated : populated demo_state demo_texture demo_cells.
Proof.
  unfold populated, is_uint16, UINT16_MAX. simpl.
  repeat split; try lia.
  repeat constructor; unfold UINT32_MAX; lia.
Defined.

Lemma write_read_roundtrip_witness :
  exists st1 t' st2,
    writeTexture demo_texture "t.csv" demo_state = Ok (tt, st1) /\
    readTexture (mkTexture 0 0 NULL) "t.csv" st1 = Ok (t', st2) /\
    w t' = 2 /\ h t' = 2 /\ block st2 (data t') = Some demo_cells.
Proof.
  destruct (write_read_roundtrip demo_state demo_texture demo_cells "t.csv"
              demo_populated) as [Hpost Hret].
  destruct (Hret eq_refl ltac:(vm_compute; discriminate) eq_refl (mkTexture 0 0 NULL))
    as (st1 & t' & st2 & Ew & Er).
  exists st1, t', st2. split; [exact Ew|]. split; [exact Er|].
  exact (Hpost st1 _ t' st2 Ew Er).
Defined.

Lemma csv_fields_chars fs :
  Forall decimal_field fs ->
  Forall (fun c => is_digit c = true \/ c = comma) (csv_fields fs).
Proof.
  induction 1 as [|f fs [_ Hf] _ IH]; [constructor|].
  unfold csv_fields. simpl. rewrite <- app_assoc.
  apply Forall_app. split.
  - eapply Forall_impl; [exact Hf|]. intros c Hc. now left.
  - constructor; [now right | exact IH].
Qed.

(** C3: for every populated texture, [writeTexture] leaves in the file
    exactly the record [width,height,value0,...,valueN,]: every field,
    the last value included, is followed by a comma; every field is the
    decimal text of its value; the file holds digits and commas only, so no
    newline; a 2x2 texture with data [0, 4294967295, 2147483647, 1073741823]
    gives "2,2,0,4294967295,2147483647,1073741823,".  The call returns
    whenever the path can be opened and the product of the extents fits
    [int]. *)
Theorem writeTexture_record st t cells path :
  populated st t cells ->
  (forall st', writeTexture t path st = Ok (tt, st') ->
     files st' !! path = Some (csv_record (w t) (h t) cells)) /\
  csv_record (w t) (h t) cells =
    print_uint (w t) ++ [comma] ++ print_uint (h t) ++ [comma] ++
    flat_map (fun v => print_uint v ++ [comma]) cells /\
  (decimal_field (print_uint (w t)) /\ dec_value (print_uint (w t)) = w t) /\
  (decimal_field (print_uint (h t)) /\ dec_value (print_uint (h t)) = h t) /\
  Forall (fun v => decimal_field (print_uint v) /\ dec_value (print_uint v) = v) cells /\
  Forall (fun c => is_digit c = true \/ c = comma) (csv_record (w t) (h t) cells) /\
  csv_record 2 2 [0; 4294967295; 2147483647; 1073741823] =
    list_ascii_of_string "2,2,0,4294967295,2147483647,1073741823," /\
  (writable st path = true -> w t * h t <= INT_MAX ->
   exists st', writeTexture t path st = Ok (tt, st')).
Proof.
  intros Hpop. rewrite (writeTexture_run _ _ path _ Hpop).
  destruct Hpop as (Hw & Hh & Hb & Hlen & Hcells).
  pose proof (csv_record_fields _ _ _ Hw Hh Hcells)
    as (Hsep & Hfw & Hfh & Hfds & _).
  refine (conj _ (conj _ (conj (conj _ _) (conj (conj _ _)
            (conj _ (conj _ (conj _ _))))))).
  - intros st' E.
    destruct (writable st path); [|discriminate].
    destruct (INT_MAX <? w t * h t); [discriminate|].
    inversion E; subst st'; clear E. simpl files. apply lookup_insert_eq.
  - unfold csv_record, csv_fields. simpl. rewrite flat_map_map.
    now rewrite <- !app_assoc.
  - exact Hfw.
  - apply print_uint_value, Hw.
  - exact Hfh.
  - apply print_uint_value, Hh.
  - eapply Forall_impl; [exact Hcells|]. intros v Hv.
    split; [apply print_uint_field, Hv | apply print_uint_value, Hv].
  - apply csv_fields_chars.
    constructor; [exact Hfw|]. constructor; [exact Hfh | exact Hfds].
  - reflexivity.
  - intros Hwr Hfit. rewrite Hwr.
    destruct (Z.ltb_spec INT_MAX (w t * h t)); [lia|]. eauto.
Qed.

Lemma writeTexture_record_witness :
  exists st',
    writeTexture demo_texture "t.csv" demo_state = Ok (tt, st') /\
    files st' !! "t.csv"%string =
      Some (list_ascii_of_string "2,2,0,4294967295,2147483647,1073741823,").
Proof.
  destruct (writeTexture_record demo_state demo_texture demo_cells "t.csv"
              demo_populated) as (Hpost & _ & _ & _ & _ & _ & Hex & Hret).
  destruct (Hret eq_refl ltac:(vm_compute; discriminate)) as (st' & E).
  exists st'. split; [exact E|].
  rewrite (Hpost st' E). apply (f_equal Some). exact Hex.
Defined.

Lemma set_files_set_files fs1 fs2 st :
  set_files fs2 (set_files fs1 st) = set_files fs2 st.
Proof. reflexivity. Qed.

(** C9: [writeTexture] does not modify the texture it serialises.  For
    every populated texture, after the call the heap is what it was, so the
    texture is populated with the same extents and the same cells, and a
    second call leaves the very same state: the texture can be written any
    number of times with the same result. *)
Theorem writeTexture_frame st t cells path :
  populated st t cells ->
  (forall st', writeTexture t path st = Ok (tt, st') ->
     heap st' = heap st /\ avail st' = avail st /\
     populated st' t cells /\
     writeTexture t path st' = Ok (tt, st')) /\
  (writable st path = true -> w t * h t <= INT_MAX ->
   exists st', writeTexture t path st = Ok (tt, st')).
Proof.
  intros Hpop. pose proof (writeTexture_run _ _ path _ Hpop) as Hrun. split.
  - intros st' E. rewrite Hrun in E.
    destruct (writable st path) eqn:Hwr; [|discriminate].
    destruct (INT_MAX <? w t * h t) eqn:Hfit; [discriminate|].
    inversion E; subst st'; clear E.
    assert (populated
              (set_files (<[path := csv_record (w t) (h t) cells]> (files st)) st)
              t cells) as Hpop' by exact Hpop.
    repeat split; try apply Hpop.
    rewrite (writeTexture_run _ _ path _ Hpop'), Hfit. simpl writable. rewrite Hwr.
    simpl files. now rewrite insert_insert_eq, set_files_set_files.
  - intros Hwr Hfit. rewrite Hrun, Hwr.
    destruct (Z.ltb_spec INT_MAX (w t * h t)); [lia|]. eauto.
Qed.

Lemma writeTexture_frame_witness :
  exists st',
    writeTexture demo_texture "t.csv" demo_state = Ok (tt, st') /\
    block st' (data demo_texture) = Some demo_cells /\
    writeTexture demo_texture "t.csv" st' = Ok (tt, st').
Proof.
  destruct (writeTexture_frame demo_state demo_texture demo_cells "t.csv"
              demo_populated) as (Hpost & Hret).
  destruct (Hret eq_refl ltac:(vm_compute; discriminate)) as (st' & E).
  exists st'. split; [exact E|].
  destruct (Hpost st' E) as (_ & _ & Hpop & Hagain).
  split; [apply Hpop | exact Hagain].
Defined.

(** C7: after one [freeTexture] the data pointer is null and the block is
    no longer live; a second [freeTexture] of the same texture returns
    (free of a null pointer does nothing) and leaves the texture and the
    machine exactly as the first call left them.  The first call returns for
    every texture whose pointer is null or the start of a live block. *)
Theorem freeTexture_idempotent t st :
  (forall t1 st1, freeTexture t st = Ok (t1, st1) ->
     data t1 = NULL /\ block st1 (data t) = None /\
     freeTexture t1 st1 = Ok (t1, st1)) /\
  (data t = NULL \/ (exists cells, block st (data t) = Some cells) ->
   exists t1 st1, freeTexture t st = Ok (t1, st1)).
Proof.
  rewrite freeTexture_run. split.
  - intros t1 st1 E. destruct (data t) as [|b] eqn:Hd.
    + inversion E; subst; clear E. repeat split.
    + destruct (block st (Ptr b)) as [cells|] eqn:Hb; [|discriminate].
      inversion E; subst; clear E. split; [reflexivity|]. split; [|reflexivity].
      apply block_Some, lookup_lt_Some in Hb.
      unfold block, set_heap. simpl. now rewrite list_lookup_insert_eq.
  - intros [Hd | [cells Hb]].
    + rewrite Hd. eauto.
    + destruct (data t) as [|b]; [eauto|]. rewrite Hb. eauto.
Qed.

Lemma freeTexture_idempotent_witness :
  exists t1 st1,
    freeTexture demo_texture demo_state = Ok (t1, st1) /\
    data t1 = NULL /\ freeTexture t1 st1 = Ok (t1, st1).
Proof.
  destruct (freeTexture_idempotent demo_texture demo_state) as [Hpost Hret].
  destruct Hret as (t1 & st1 & E).
  - right. exists demo_cells. reflexivity.
  - exists t1, st1. split; [exact E|].
    destruct (Hpost t1 st1 E) as (H1 & _ & H2). split; assumption.
Defined.

(** C10: [freeTexture] changes the data pointer only.  After the call the
    width and the height are what they were and the pointer is null; the
    files and every other block of the heap are untouched. *)
Theorem freeTexture_keeps_extents t st :
  forall t1 st1, freeTexture t st = Ok (t1, st1) ->
    w t1 = w t /\ h t1 = h t /\ data t1 = NULL /\
    files st1 = files st /\
    (forall b, data t <> Ptr b -> heap st1 !! b = heap st !! b).
Proof.
  intros t1 st1 E. rewrite freeTexture_run in E.
  destruct (data t) as [|b0] eqn:Hd.
  - inversion E; subst; clear E. repeat split.
  - destruct (block st (Ptr b0)) as [cells|]; [|discriminate].
    inversion E; subst; clear E. repeat split.
    intros b Hne. simpl. apply list_lookup_insert_ne. congruence.
Qed.

Lemma freeTexture_keeps_extents_witness :
  exists t1 st1,
    freeTexture demo_texture demo_state = Ok (t1, st1) /\
    w t1 = 2 /\ h t1 = 2 /\ data t1 = NULL.
Proof.
  exists (mkTexture 2 2 NULL). eexists. split; [reflexivity|].
  destruct (freeTexture_keeps_extents demo_texture demo_state _ _ eq_refl)
    as (H1 & H2 & H3 & _).
  split; [exact H1|]. split; [exact H2 | exact H3].
Defined.

(** ** Empty textures *)

Lemma initTexture_f_empty st w0 h0 (data0 : list float) :
  is_uint16 w0 -> is_uint16 h0 -> w0 * h0 = 0 ->
  initTexture_f w0 h0 data0 st =
  if can_alloc st 0
  then Ok (mkTexture w0 h0 (Ptr (length (heap st))), alloc_block [] 0 st)
  else AssertFail.
Proof.
  intros Hw Hh Hz. unfold initTexture_f.
  unfold bind at 1. rewrite (extent_run _ _ _ Hw Hh), Hz. simpl.
  unfold bind at 1. rewrite calloc_run. change (0 * sizeof_uint32) with 0.
  destruct (can_alloc st 0); reflexivity.
Qed.

Lemma initTexture_i_empty st w0 h0 (data0 : list Z) :
  is_uint16 w0 -> is_uint16 h0 -> w0 * h0 = 0 ->
  initTexture_i w0 h0 data0 st =
  if can_alloc st 0
  then Ok (mkTexture w0 h0 (Ptr (length (heap st))), alloc_block [] 0 st)
  else AssertFail.
Proof.
  intros Hw Hh Hz. unfold initTexture_i.
  unfold bind at 1. rewrite (extent_run _ _ _ Hw Hh), Hz. simpl.
  unfold bind at 1. rewrite calloc_run. change (0 * sizeof_uint32) with 0.
  destruct (can_alloc st 0); reflexivity.
Qed.

Lemma writeTexture_empty st w0 h0 p path :
  is_uint16 w0 -> is_uint16 h0 -> w0 * h0 = 0 ->
  writeTexture (mkTexture w0 h0 p) path st =
  if writable st path
  then Ok (tt, set_files
                 (<[path := print_uint w0 ++ [comma] ++ print_uint h0 ++ [comma]]>
                    (files st)) st)
  else AssertFail.
Proof.
  intros Hw Hh Hz. unfold writeTexture. unfold bind at 1. unfold fopen.
  destruct (writable st path); [|reflexivity].
  unfold bind at 1. cbn [w h data]. rewrite (extent_run _ _ _ Hw Hh), Hz. simpl.
  unfold bind, ret, fclose, fprintf_hu_hu, set_files. simpl.
  now rewrite insert_insert_eq, (to_uint16_id _ Hw), (to_uint16_id _ Hh).
Qed.

Lemma readTexture_empty st t path contents fw fh fds tail :
  files st !! path = Some contents ->
  record_fields contents fw fh fds tail ->
  dec_value fw * dec_value fh = 0 ->
  readTexture t path st =
  if can_alloc st 0
  then Ok (mkTexture (dec_value fw) (dec_value fh) (Ptr (length (heap st))),
           alloc_block [] 0 st)
  else AssertFail.
Proof.
  intros Hfile Hrec Hz.
  rewrite (readTexture_run _ _ _ _ _ _ _ _ Hfile Hrec) by lia.
  rewrite Hz. reflexivity.
Qed.

(** C8: with a width or a height of zero the initialisers (and the reader)
    produce a data buffer of length zero, [writeTexture] produces a file
    that holds the two header fields and nothing else, and no call has
    undefined behaviour: no cell of the buffer and no element of the sample
    array is accessed, whatever the sample array and whatever the data
    pointer of the texture written. *)
Theorem zero_extent_safe st w0 h0 :
  is_uint16 w0 -> is_uint16 h0 ->
  w0 = 0 \/ h0 = 0 ->
  (forall data0 : list float,
     initTexture_f w0 h0 data0 st =
     if can_alloc st 0
     then Ok (mkTexture w0 h0 (Ptr (length (heap st))), alloc_block [] 0 st)
     else AssertFail) /\
  (forall data0 : list Z,
     initTexture_i w0 h0 data0 st =
     if can_alloc st 0
     then Ok (mkTexture w0 h0 (Ptr (length (heap st))), alloc_block [] 0 st)
     else AssertFail) /\
  block (alloc_block [] 0 st) (Ptr (length (heap st))) = Some [] /\
  (forall p path,
     writeTexture (mkTexture w0 h0 p) path st =
     if writable st path
     then Ok (tt, set_files
                    (<[path := print_uint w0 ++ [comma] ++ print_uint h0 ++ [comma]]>
                       (files st)) st)
     else AssertFail) /\
  (forall t path contents fw fh fds tail,
     files st !! path = Some contents ->
     record_fields contents fw fh fds tail ->
     dec_value fw = w0 -> dec_value fh = h0 ->
     readTexture t path st =
     if can_alloc st 0
     then Ok (mkTexture w0 h0 (Ptr (length (heap st))), alloc_block [] 0 st)
     else AssertFail).
Proof.
  intros Hw Hh Hz.
  assert (w0 * h0 = 0) as Hp by (destruct Hz; subst; lia).
  split; [|split; [|split; [|split]]].
  - intros data0. now apply initTexture_f_empty.
  - intros data0. now apply initTexture_i_empty.
  - apply block_alloc_block.
  - intros p path. now apply writeTexture_empty.
  - intros t path contents fw fh fds tail Hfile Hrec <- <-.
    now apply (readTexture_empty _ _ _ _ _ _ _ _ Hfile Hrec).
Qed.

Lemma zero_extent_safe_witness :
  initTexture_i 0 5 [] (fresh_state 64) =
    Ok (mkTexture 0 5 (Ptr 0), alloc_block [] 0 (fresh_state 64)) /\
  writeTexture (mkTexture 0 5 (Ptr 0)) "t.csv" (alloc_block [] 0 (fresh_state 64)) =
    Ok (tt, set_files {[ "t.csv"%string := list_ascii_of_string "0,5," ]}
              (alloc_block [] 0 (fresh_state 64))).
Proof.
  assert (is_uint16 0) as H0 by (unfold is_uint16, UINT16_MAX; lia).
  assert (is_uint16 5) as H5 by (unfold is_uint16, UINT16_MAX; lia).
  split.
  - destruct (zero_extent_safe (fresh_state 64) 0 5 H0 H5 (or_introl eq_refl))
      as (_ & Hi & _).
    exact (Hi []).
  - destruct (zero_extent_safe (alloc_block [] 0 (fresh_state 64)) 0 5 H0 H5
                (or_introl eq_refl)) as (_ & _ & _ & Hwr & _).
    exact (Hwr (Ptr 0) "t.csv"%string).
Defined.

(** ** Extents whose product does not fit [int] *)

Lemma readTexture_overflow st t path contents fw fh fds tail :
  files st !! path = Some contents ->
  record_fields contents fw fh fds tail ->
  INT_MAX < dec_value fw * dec_value fh ->
  readTexture t path st = Undefined.
Proof.
  intros Hfile (-> & Hfw & Hfh & _ & Htail & Hw & Hh & _) Hbig.
  pose proof (dec_value_uint16 _ Hfw Hw) as Hw16.
  pose proof (dec_value_uint16 _ Hfh Hh) as Hh16.
  unfold readTexture. unfold bind at 1. unfold fopen. rewrite Hfile.
  destruct (fscanf_hu_hu_fields
              (mkFILE path ReadMode (sep_fields (fw :: fh :: fds) ++ tail))
              t fw fh fds tail eq_refl Hfw Hfh Htail Hw Hh)
    as (fp1 & E1 & _).
  unfold bind at 1. rewrite E1. simpl lift. cbv beta iota.
  unfold bind at 1. cbn [w h data]. rewrite (extent_run _ _ _ Hw16 Hh16).
  destruct (Z.ltb_spec INT_MAX (dec_value fw * dec_value fh)); [reflexivity | lia].
Qed.

(** C6 (what the code does): when the product of the two extents is above
    [INT_MAX] (from 46341 x 46341 up to 65535 x 65535), the expression
    [w * h] overflows [int], and no populating operation returns: the
    behaviour of both initialisers, of the reader and of the writer is
    undefined, whatever the memory available and whatever the arrays passed.
    The data buffer of length [width * height] the invariant speaks of is
    never built for these extents. *)
Theorem large_extent_undefined st w0 h0 :
  is_uint16 w0 -> is_uint16 h0 ->
  INT_MAX < w0 * h0 ->
  int_mul w0 h0 = Undefined /\
  (forall data0 : list float, initTexture_f w0 h0 data0 st = Undefined) /\
  (forall data0 : list Z, initTexture_i w0 h0 data0 st = Undefined) /\
  (forall t path contents fw fh fds tail,
     files st !! path = Some contents ->
     record_fields contents fw fh fds tail ->
     dec_value fw = w0 -> dec_value fh = h0 ->
     readTexture t path st = Undefined) /\
  (forall p path,
     writeTexture (mkTexture w0 h0 p) path st =
     if writable st path then Undefined else AssertFail).
Proof.
  intros Hw Hh Hbig.
  assert (forall s, extent w0 h0 s = Undefined) as Hext.
  { intros s. rewrite (extent_run _ _ _ Hw Hh).
    destruct (Z.ltb_spec INT_MAX (w0 * h0)); [reflexivity | lia]. }
  split; [|split; [|split; [|split]]].
  - unfold int_mul.
    destruct (Z.leb_spec (w0 * h0) INT_MAX); [lia|]. now rewrite andb_false_r.
  - intros data0. unfold initTexture_f. now rewrite bind_Undefined.
  - intros data0. unfold initTexture_i. now rewrite bind_Undefined.
  - intros t path contents fw fh fds tail Hfile Hrec <- <-.
    now apply (readTexture_overflow _ _ _ _ _ _ _ _ Hfile Hrec).
  - intros p path. unfold writeTexture. unfold bind at 1. unfold fopen.
    destruct (writable st path); [|reflexivity].
    cbn [w h data]. now rewrite bind_Undefined.
Qed.

Lemma large_extent_undefined_witness :
  initTexture_i 65535 65535 (replicate (Z.to_nat (65535 * 65535)) 0)
    (fresh_state SIZE_MAX) = Undefined /\
  initTexture_f 65535 65535 (replicate (Z.to_nat (65535 * 65535)) float_0)
    (fresh_state SIZE_MAX) = Undefined /\
  initTexture_i 46341 46341 [] (fresh_state SIZE_MAX) = Undefined.
Proof.
  assert (is_uint16 65535) as Hmax by (unfold is_uint16, UINT16_MAX; lia).
  assert (is_uint16 46341) as Hmin by (unfold is_uint16, UINT16_MAX; lia).
  split; [|split].
  - destruct (large_extent_undefined (fresh_state SIZE_MAX) 65535 65535 Hmax Hmax)
      as (_ & _ & Hi & _); [unfold INT_MAX; lia|]. apply Hi.
  - destruct (large_extent_undefined (fresh_state SIZE_MAX) 65535 65535 Hmax Hmax)
      as (_ & Hf & _); [unfold INT_MAX; lia|]. apply Hf.
  - destruct (large_extent_undefined (fresh_state SIZE_MAX) 46341 46341 Hmin Hmin)
      as (_ & _ & Hi & _); [unfold INT_MAX; lia|]. apply Hi.
Defined.

(** Below that bound [initTexture_i] keeps the invariant whenever it
    returns: the data pointer is the start of a live block of [w * h]
    cells. *)
Lemma initTexture_i_length st w0 h0 (data0 : list Z) t st' :
  is_uint16 w0 -> is_uint16 h0 ->
  Z.of_nat (length data0) = w0 * h0 ->
  initTexture_i w0 h0 data0 st = Ok (t, st') ->
  exists cells, block st' (data t) = Some cells /\
                Z.of_nat (length cells) = w t * h t /\ w t * h t <= INT_MAX.
Proof.
  intros Hw Hh Hlen E. rewrite (initTexture_i_run _ _ _ _ Hw Hh Hlen) in E.
  destruct (Z.ltb_spec INT_MAX (w0 * h0)); [discriminate|].
  destruct (can_alloc st (w0 * h0 * sizeof_uint32)); [|discriminate].
  inversion E; subst; clear E. cbn [w h data].
  rewrite block_alloc_block. eexists. split; [reflexivity|].
  rewrite length_map. split; assumption.
Qed.

(** So does [readTexture] on a well-formed record. *)
Lemma readTexture_length st t path contents fw fh fds tail t' st' :
  files st !! path = Some contents ->
  record_fields contents fw fh fds tail ->
  dec_value fw * dec_value fh <= Z.of_nat (length fds) ->
  readTexture t path st = Ok (t', st') ->
  exists cells, block st' (data t') = Some cells /\
                Z.of_nat (length cells) = w t' * h t' /\ w t' * h t' <= INT_MAX.
Proof.
  intros Hfile Hrec Hn E.
  rewrite (readTexture_run _ _ _ _ _ _ _ _ Hfile Hrec Hn) in E.
  destruct Hrec as (_ & Hfw & Hfh & _ & _ & Hw & Hh & _).
  pose proof (dec_value_uint16 _ Hfw Hw) as [Hw0 _].
  pose proof (dec_value_uint16 _ Hfh Hh) as [Hh0 _].
  destruct (Z.ltb_spec INT_MAX (dec_value fw * dec_value fh)); [discriminate|].
  destruct (can_alloc st _); [|discriminate].
  inversion E; subst; clear E. cbn [w h data].
  rewrite block_alloc_block. eexists. split; [reflexivity|].
  rewrite length_map, length_take. split; [|assumption].
  assert (0 <= dec_value fw * dec_value fh) by now apply Z.mul_nonneg_nonneg.
  lia.
Qed.

(** ** The scaling of float samples *)

Lemma store_run st b cells i v :
  block st (Ptr b) = Some cells -> (i < length cells)%nat ->
  store (Ptr b) i v st = Ok (tt, set_block b (<[i := to_uint32 v]> cells) st).
Proof.
  intros Hb Hi. unfold store. rewrite Hb.
  destruct (decide (i < length cells)%nat); [reflexivity | contradiction].
Qed.

(** C2 (what the code does): [UINT32_MAX] is not a binary32 value and
    converts to 2^32, so the sample 0.5 gives 2147483648 and the sample
    0.25 gives 1073741824, not 2147483647 and 1073741823; the sample 1.0
    gives the float 2^32, whose conversion to [uint32_t] is undefined, not
    4294967295.  The call initTexture_f(2, 2, {0.0, 1.0, 0.5, 0.25}) has
    undefined behaviour at its second sample. *)
Theorem initTexture_f_scaling st :
  float_of_int UINT32_MAX = S754_finite false 8388608 9 /\
  float_trunc (float_of_int UINT32_MAX) = Some 4294967296 /\
  scale_sample float_0 = Ok 0 /\
  scale_sample float_half = Ok 2147483648 /\
  scale_sample float_quarter = Ok 1073741824 /\
  scale_sample float_1 = Undefined /\
  initTexture_f 2 2 [float_0; float_1; float_half; float_quarter] st =
    (if can_alloc st 16 then Undefined else AssertFail) /\
  initTexture_f 1 2 [float_half; float_quarter] st =
    (if can_alloc st 8
     then Ok (mkTexture 1 2 (Ptr (length (heap st))),
              alloc_block [2147483648; 1073741824] 8 st)
     else AssertFail).
Proof.
  assert (is_uint16 1) as H1 by (unfold is_uint16, UINT16_MAX; lia).
  assert (is_uint16 2) as H2 by (unfold is_uint16, UINT16_MAX; lia).
  repeat (split; [vm_compute; reflexivity|]). split.
  - unfold initTexture_f.
    unfold bind at 1. rewrite (extent_run _ _ _ H2 H2).
    change (INT_MAX <? 2 * 2) with false. change (2 * 2) with 4. cbv beta iota.
    unfold bind at 1. rewrite calloc_run. change (4 * sizeof_uint32) with 16.
    destruct (can_alloc st 16); [|reflexivity].
    unfold bind at 1. simpl assert. cbv beta iota.
    apply bind_Undefined.
    change (Z.to_nat 4) with 4%nat. cbn [for_loop].
    erewrite bind_Ok.
    2: { unfold bind at 1. unfold index. cbn [lookup list_lookup].
         unfold bind at 1. change (scale_sample float_0) with (@Ok Z 0).
         cbn [lift].
         apply store_run; [apply block_alloc_block | simpl; lia]. }
    reflexivity.
  - refine (initTexture_f_run st 1 2 [float_half; float_quarter]
              [2147483648; 1073741824] H1 H2 eq_refl _).
    repeat constructor.
Qed.

(** * Further properties *)

(** ** The scaling of a float sample by [UINT32_MAX] *)

Lemma iter_pos_nat {A} (f : A -> A) p : forall x,
  SpecFloat.iter_pos f p x = Nat.iter (Pos.to_nat p) f x.
Proof.
  induction p as [p IH | p IH |]; intros x; simpl SpecFloat.iter_pos.
  - rewrite !IH, Pos2Nat.inj_xI, <- Nat.iter_succ_r.
    replace (S (2 * Pos.to_nat p)) with (Pos.to_nat p + S (Pos.to_nat p))%nat by lia.
    now rewrite Nat.iter_add.
  - rewrite !IH, Pos2Nat.inj_xO.
    replace (2 * Pos.to_nat p)%nat with (Pos.to_nat p + Pos.to_nat p)%nat by lia.
    now rewrite Nat.iter_add.
  - reflexivity.
Qed.

(** Shifting out zero bits loses nothing. *)
Lemma shr_exact j : forall k m,
  (j <= k)%nat ->
  Nat.iter j shr_1 (Build_shr_record (Z.pos (Nat.iter k xO m)) false false) =
  Build_shr_record (Z.pos (Nat.iter (k - j) xO m)) false false.
Proof.
  induction j as [|j IH]; intros k m Hjk.
  - now rewrite Nat.sub_0_r.
  - destruct k as [|k]; [lia|].
    rewrite Nat.iter_succ_r. simpl Nat.iter at 2. simpl shr_1.
    rewrite IH by lia. reflexivity.
Qed.

Lemma digits2_iter_xO k m :
  Z.pos (digits2_pos (Nat.iter k xO m)) = Z.pos (digits2_pos m) + Z.of_nat k.
Proof.
  induction k as [|k IH]; [simpl; lia|].
  simpl Nat.iter. simpl digits2_pos. rewrite Pos2Z.inj_succ, IH. lia.
Qed.

Lemma pos_iter_xO_shiftl k m :
  Z.pos (Nat.iter k xO m) = Z.shiftl (Z.pos m) (Z.of_nat k).
Proof.
  induction k as [|k IH]; [reflexivity|].
  rewrite Nat2Z.inj_succ, <- Z.add_1_r, <- Z.shiftl_shiftl by lia.
  rewrite <- IH. simpl Nat.iter. rewrite Z.shiftl_mul_pow2 by lia. lia.
Qed.

(** The product of the float 2^32 and a valid finite float is exact: the
    mantissa only moves. *)
Lemma float_mul_two32 s m e :
  valid_binary prec32 emax32 (S754_finite s m e) = true ->
  exists n : nat,
    (n <= 23)%nat /\
    float_mul (float_of_int UINT32_MAX) (S754_finite s m e) =
    if 9 + e + Z.of_nat n <=? emax32 - prec32
    then S754_finite s (Nat.iter (23 - n) xO m) (9 + e + Z.of_nat n)
    else S754_infinity s.
Proof.
  intros Hv. simpl in Hv. unfold bounded, canonical_mantissa in Hv.
  apply andb_true_iff in Hv. destruct Hv as [Hc Hb].
  apply Z.eqb_eq in Hc. apply Z.leb_le in Hb.
  unfold fexp, SpecFloat.emin, prec32, emax32 in Hc, Hb.
  set (d := Z.pos (digits2_pos m)) in *.
  assert (1 <= d) as Hd by (unfold d; lia).
  set (sh := Z.max (d + e + 8) (-149) - 9 - e).
  assert (0 <= sh <= 23) as Hsh by (unfold sh; lia).
  exists (Z.to_nat sh). split; [lia|].
  rewrite Z2Nat.id by lia.
  change (float_of_int UINT32_MAX) with (S754_finite false 8388608 9).
  unfold float_mul, SFmul. change (xorb false s) with s.
  change (Pos.mul 8388608 m) with (Nat.iter 23 xO m).
  unfold binary_round_aux.
  assert (shr_fexp prec32 emax32 (Z.pos (Nat.iter 23 xO m)) (9 + e) loc_Exact =
          (Build_shr_record (Z.pos (Nat.iter (23 - Z.to_nat sh) xO m)) false false,
           9 + e + sh)) as ->.
  { unfold shr_fexp, Zdigits2, fexp, SpecFloat.emin, prec32, emax32.
    rewrite digits2_iter_xO. fold d.
    replace (Z.max (d + Z.of_nat 23 + (9 + e) - 24) (3 - 128 - 24) - (9 + e))
      with sh by (unfold sh; lia).
    unfold shr, shr_record_of_loc.
    destruct sh as [|p|p] eqn:Esh; [| |lia].
    - simpl Z.to_nat. rewrite Nat.sub_0_r. f_equal. lia.
    - rewrite iter_pos_nat, shr_exact by lia. reflexivity. }
  cbn [shr_m loc_of_shr_record round_nearest_even].
  assert (shr_fexp prec32 emax32 (Z.pos (Nat.iter (23 - Z.to_nat sh) xO m))
            (9 + e + sh) loc_Exact =
          (Build_shr_record (Z.pos (Nat.iter (23 - Z.to_nat sh) xO m)) false false,
           9 + e + sh)) as ->.
  { unfold shr_fexp, Zdigits2, fexp, SpecFloat.emin, prec32, emax32.
    rewrite digits2_iter_xO. fold d.
    replace (Z.max (d + Z.of_nat (23 - Z.to_nat sh) + (9 + e + sh) - 24) (3 - 128 - 24)
             - (9 + e + sh)) with 0 by (unfold sh in *; lia).
    reflexivity. }
  cbn [shr_m]. reflexivity.
Qed.

(** X1: (uint32_t)(UINT32_MAX * x) on a valid finite binary32 [x]: the integral
    part of [x * 2^32] when it is a [uint32_t] value, undefined behaviour
    otherwise.  The factor is 2^32: the constant 4294967295 is rounded to
    it when it is converted to [float]. *)
Theorem scale_sample_finite s m e :
  valid_binary prec32 emax32 (S754_finite s m e) = true ->
  scale_sample (S754_finite s m e) =
  if (0 <=? scaled_trunc s m e) && (scaled_trunc s m e <=? UINT32_MAX)
  then Ok (scaled_trunc s m e)
  else Undefined.
Proof.
  intros Hv. destruct (float_mul_two32 s m e Hv) as (n & Hn & E).
  unfold scale_sample. rewrite E. unfold emax32, prec32.
  destruct (Z.leb_spec (9 + e + Z.of_nat n) (128 - 24)) as [Hfin | Hinf].
  - unfold uint32_of_float, float_trunc.
    rewrite pos_iter_xO_shiftl, Z.shiftl_shiftl by lia.
    replace (Z.of_nat (23 - n) + (9 + e + Z.of_nat n)) with (e + 32) by lia.
    reflexivity.
  - unfold uint32_of_float, float_trunc, scaled_trunc.
    rewrite Z.shiftl_mul_pow2 by lia.
    assert (2 ^ 105 <= 2 ^ (e + 32)) as Hpow by (apply Z.pow_le_mono_r; lia).
    assert (2 ^ 105 <= Z.pos m * 2 ^ (e + 32)) as Hbig by nia.
    change (2 ^ 105) with 40564819207303340847894502572032 in Hbig.
    unfold UINT32_MAX. destruct s.
    + destruct (Z.leb_spec 0 (- (Z.pos m * 2 ^ (e + 32)))); [lia | reflexivity].
    + destruct (Z.leb_spec (Z.pos m * 2 ^ (e + 32)) 4294967295); [lia|].
      now rewrite andb_false_r.
Qed.

Lemma scale_sample_finite_witness :
  scale_sample float_half = Ok 2147483648.
Proof.
  exact (scale_sample_finite false 8388608 (-24) eq_refl).
Defined.

(** A positive finite sample is below 1.0 exactly when its scaled value is
    a [uint32_t] value. *)
Lemma below_one_iff m e :
  e <= 0 ->
  (Z.pos m < 2 ^ (- e) <-> scaled_trunc false m e <= UINT32_MAX).
Proof.
  intros He. unfold scaled_trunc, UINT32_MAX.
  destruct (Z.le_gt_cases 0 (e + 32)) as [Hp | Hn].
  - rewrite Z.shiftl_mul_pow2 by lia.
    assert (2 ^ (- e) * 2 ^ (e + 32) = 4294967296) as Hsplit.
    { rewrite <- Z.pow_add_r by lia. now replace (- e + (e + 32)) with 32 by lia. }
    assert (0 < 2 ^ (e + 32)) by (apply Z.pow_pos_nonneg; lia).
    split; intros H1; nia.
  - rewrite Z.shiftl_div_pow2 by lia.
    assert (2 ^ (- e) = 4294967296 * 2 ^ (- (e + 32))) as Hsplit.
    { change 4294967296 with (2 ^ 32). rewrite <- Z.pow_add_r by lia.
      f_equal. lia. }
    assert (0 < 2 ^ (- (e + 32))) as Hpos by (apply Z.pow_pos_nonneg; lia).
    rewrite Hsplit. split; intros H1.
    + assert (Z.pos m / 2 ^ (- (e + 32)) < 4294967296); [|lia].
      apply Z.div_lt_upper_bound; lia.
    + pose proof (Z.mul_succ_div_gt (Z.pos m) (2 ^ (- (e + 32))) Hpos). nia.
Qed.

(** X2: A sample in [0.0, 1.0): the call is defined and gives the integral
    part of [x * 2^32].  A sample at or above 1.0: the conversion to
    [uint32_t] is undefined behaviour. *)
Theorem scale_sample_unit_interval m e :
  valid_binary prec32 emax32 (S754_finite false m e) = true ->
  (e <= 0 -> Z.pos m < 2 ^ (- e) ->
   scale_sample (S754_finite false m e) = Ok (Z.shiftl (Z.pos m) (e + 32)) /\
   0 <= Z.shiftl (Z.pos m) (e + 32) <= UINT32_MAX) /\
  ((e <= 0 -> 2 ^ (- e) <= Z.pos m) ->
   scale_sample (S754_finite false m e) = Undefined).
Proof.
  intros Hv. rewrite (scale_sample_finite _ _ _ Hv).
  assert (0 <= scaled_trunc false m e) as Hnn by (apply Z.shiftl_nonneg; lia).
  destruct (Z.leb_spec 0 (scaled_trunc false m e)) as [_|]; [|lia].
  split.
  - intros He Hlt. apply (below_one_iff m e He) in Hlt.
    destruct (Z.leb_spec (scaled_trunc false m e) UINT32_MAX); [|lia].
    split; [reflexivity | split; assumption].
  - intros Hge.
    destruct (Z.leb_spec (scaled_trunc false m e) UINT32_MAX) as [Hle|]; [|reflexivity].
    exfalso. destruct (Z.le_gt_cases e 0) as [He | He].
    + apply (below_one_iff m e He) in Hle. specialize (Hge He). lia.
    + unfold scaled_trunc in Hle. rewrite Z.shiftl_mul_pow2 in Hle by lia.
      assert (2 ^ 32 <= 2 ^ (e + 32)) as Hpow by (apply Z.pow_le_mono_r; lia).
      change (2 ^ 32) with 4294967296 in Hpow. unfold UINT32_MAX in Hle. nia.
Qed.

Lemma scale_sample_unit_interval_witness :
  scale_sample float_quarter = Ok 1073741824 /\
  scale_sample float_1 = Undefined.
Proof.
  split.
  - destruct (scale_sample_unit_interval 8388608 (-25) eq_refl) as [Hin _].
    destruct Hin as [E _]; [lia | reflexivity | exact E].
  - destruct (scale_sample_unit_interval 8388608 (-23) eq_refl) as [_ Hout].
    apply Hout. intros _. vm_compute. discriminate.
Defined.

Lemma scale_sample_in_range x :
  sample_in_range x = true -> scale_sample x = Ok (sample_value x).
Proof.
  destruct x as [s | s | | s m e]; simpl; try discriminate.
  - intros _. now destruct s.
  - intros H. apply andb_true_iff in H. destruct H as [H Hmax].
    apply andb_true_iff in H. destruct H as [Hv Hmin].
    rewrite (scale_sample_finite _ _ _ Hv), Hmin, Hmax. reflexivity.
Qed.

Lemma scale_sample_out_of_range x :
  valid_binary prec32 emax32 x = true ->
  sample_in_range x = false -> scale_sample x = Undefined.
Proof.
  destruct x as [s | s | | s m e]; intros Hv Hout; try discriminate Hout.
  - now destruct s.
  - reflexivity.
  - rewrite (scale_sample_finite _ _ _ Hv).
    simpl in Hout. unfold valid_binary in Hv. rewrite Hv in Hout.
    simpl in Hout. now rewrite Hout.
Qed.

Lemma scale_samples_Forall2 (data0 : list float) :
  Forall (fun x => sample_in_range x = true) data0 ->
  Forall2 (fun x v => scale_sample x = Ok v) data0 (map sample_value data0).
Proof.
  induction 1 as [|x l Hx _ IH]; simpl; constructor; [|exact IH].
  now apply scale_sample_in_range.
Qed.

(** X3: initTexture_f on samples of [0.0, 1.0): after the call the width and
    the height are the inputs and cell [i] is the integral part of
    [sample i * 2^32].  The call returns whenever the product of the
    extents fits [int] and the allocation is served. *)
Theorem initTexture_f_in_range st w0 h0 (data0 : list float) :
  is_uint16 w0 -> is_uint16 h0 ->
  Z.of_nat (length data0) = w0 * h0 ->
  Forall (fun x => sample_in_range x = true) data0 ->
  (forall t st', initTexture_f w0 h0 data0 st = Ok (t, st') ->
     w t = w0 /\ h t = h0 /\
     block st' (data t) = Some (map sample_value data0)) /\
  (w0 * h0 <= INT_MAX -> can_alloc st (w0 * h0 * sizeof_uint32) = true ->
   exists t st', initTexture_f w0 h0 data0 st = Ok (t, st')).
Proof.
  intros Hw Hh Hlen Hin.
  rewrite (initTexture_f_run _ _ _ _ _ Hw Hh Hlen (scale_samples_Forall2 _ Hin)).
  split.
  - intros t st' E.
    destruct (INT_MAX <? w0 * h0); [discriminate|].
    destruct (can_alloc st (w0 * h0 * sizeof_uint32)); [|discriminate].
    inversion E; subst; clear E. cbn [w h data].
    rewrite block_alloc_block. repeat split.
  - intros Hfit Hmem. rewrite Hmem.
    destruct (Z.ltb_spec INT_MAX (w0 * h0)); [lia|]. eauto.
Qed.

Lemma initTexture_f_in_range_witness :
  exists t st',
    initTexture_f 1 3 [float_0; float_half; float_quarter] (fresh_state 64)
      = Ok (t, st') /\
    block st' (data t) = Some [0; 2147483648; 1073741824].
Proof.
  destruct (initTexture_f_in_range (fresh_state 64) 1 3
              [float_0; float_half; float_quarter]) as [Hpost Hret].
  - unfold is_uint16, UINT16_MAX. lia.
  - unfold is_uint16, UINT16_MAX. lia.
  - reflexivity.
  - repeat constructor.
  - destruct Hret as (t & st' & E).
    + unfold INT_MAX. lia.
    + reflexivity.
    + exists t, st'. split; [exact E|].
      destruct (Hpost t st' E) as (_ & _ & Hb). exact Hb.
Defined.

(** The scaling loop stops in undefined behaviour at the first sample out
    of range. *)
Lemma scale_loop_bad b (data0 : list float) N j x :
  data0 !! j = Some x ->
  sample_in_range x = false ->
  Forall (fun y => valid_binary prec32 emax32 y = true) (take (S j) data0) ->
  (j < N)%nat ->
  forall n i st,
    (i <= j < i + n)%nat ->
    (exists c, block st (Ptr b) = Some c /\ length c = N) ->
    for_loop n i
      (fun i _ => x <- index data0 i ;; v <- lift (scale_sample x) ;; store (Ptr b) i v)
      tt st = Undefined.
Proof.
  intros Hx Hbad Hvalid HjN.
  induction n as [|n IH]; intros i st Hij (c & Hc & Hlen); [lia|].
  cbn [for_loop].
  destruct (decide (i = j)) as [-> | Hne].
  - apply bind_Undefined. unfold bind at 1. unfold index. rewrite Hx.
    apply bind_Undefined. unfold lift.
    rewrite (scale_sample_out_of_range x); [reflexivity | | exact Hbad].
    refine (Forall_lookup_1 (fun y => valid_binary prec32 emax32 y = true)
              _ j x Hvalid _).
    rewrite lookup_take_lt by lia. exact Hx.
  - destruct (lookup_lt_is_Some_2 data0 i) as [y Hy].
    { apply lookup_lt_Some in Hx. lia. }
    assert (valid_binary prec32 emax32 y = true) as Hyv.
    { refine (Forall_lookup_1 (fun y => valid_binary prec32 emax32 y = true)
                _ i y Hvalid _).
      rewrite lookup_take_lt by lia. exact Hy. }
    destruct (sample_in_range y) eqn:Hyr.
    + erewrite bind_Ok.
      2: { unfold bind at 1. unfold index. rewrite Hy.
           unfold bind at 1. rewrite (scale_sample_in_range y Hyr). cbn [lift].
           apply (store_run _ _ c); [exact Hc | lia]. }
      apply IH; [lia|].
      eexists. split; [apply (block_set_block _ _ c); exact Hc|].
      now rewrite length_insert.
    + apply bind_Undefined. unfold bind at 1. unfold index. rewrite Hy.
      apply bind_Undefined. unfold lift.
      now rewrite (scale_sample_out_of_range y Hyv Hyr).
Qed.

(** X4: initTexture_f with a sample at or above 1.0, below [-2^-32], infinite or
    not a number: once the allocation is served, the behaviour is
    undefined, wherever in the array the sample is. *)
Theorem initTexture_f_bad_sample st w0 h0 (data0 : list float) j x :
  is_uint16 w0 -> is_uint16 h0 ->
  w0 * h0 <= INT_MAX ->
  can_alloc st (w0 * h0 * sizeof_uint32) = true ->
  Z.of_nat j < w0 * h0 ->
  data0 !! j = Some x ->
  sample_in_range x = false ->
  Forall (fun y => valid_binary prec32 emax32 y = true) (take (S j) data0) ->
  initTexture_f w0 h0 data0 st = Undefined.
Proof.
  intros Hw Hh Hfit Hmem Hj Hx Hbad Hvalid. unfold initTexture_f.
  unfold bind at 1. rewrite (extent_run _ _ _ Hw Hh).
  destruct (Z.ltb_spec INT_MAX (w0 * h0)); [lia|].
  unfold bind at 1. rewrite calloc_run, Hmem.
  unfold bind at 1. simpl assert. cbv beta iota.
  apply bind_Undefined.
  apply (scale_loop_bad _ _ (Z.to_nat (w0 * h0)) j x Hx Hbad Hvalid); [lia | lia |].
  eexists. split; [apply block_alloc_block|]. apply length_replicate.
Qed.

Lemma initTexture_f_bad_sample_witness :
  initTexture_f 2 2 [float_0; float_half; float_quarter; float_1] (fresh_state 64)
    = Undefined.
Proof.
  apply (initTexture_f_bad_sample (fresh_state 64) 2 2
           [float_0; float_half; float_quarter; float_1] 3 float_1).
  - unfold is_uint16, UINT16_MAX. lia.
  - unfold is_uint16, UINT16_MAX. lia.
  - unfold INT_MAX. lia.
  - reflexivity.
  - simpl. lia.
  - reflexivity.
  - reflexivity.
  - repeat constructor.
Defined.

(** ** initTexture_i and the length of the sample array *)

Lemma copy_loop_prefix st b cells0 (data0 : list Z) k :
  block st (Ptr b) = Some cells0 ->
  (k <= length cells0)%nat -> (k <= length data0)%nat ->
  for_loop k 0 (fun i _ => x <- index data0 i ;; store (Ptr b) i x) tt st =
  Ok (tt, set_block b (map to_uint32 (take k data0) ++ drop k cells0) st).
Proof.
  intros Hb Hkc Hkd.
  destruct (for_loop_inv
    (fun j (_ : unit) s =>
       s = set_block b (map to_uint32 (take j data0) ++ drop j cells0) st)
    (fun i _ => x <- index data0 i ;; store (Ptr b) i x)
    k 0%nat tt st) as (a & s & E & I).
  - simpl. rewrite drop_0. symmetry. now apply set_block_id.
  - intros j [] s Hj ->.
    destruct (lookup_lt_is_Some_2 data0 j ltac:(lia)) as [x Hx].
    exists tt. eexists. split.
    + unfold bind, index. rewrite Hx.
      apply store_fill; [assumption | | lia].
      rewrite length_map, length_take. lia.
    + rewrite (take_S_r _ _ _ Hx), map_app. reflexivity.
  - destruct a. rewrite E. simpl in I. now subst s.
Qed.

Lemma copy_loop_short b (data0 : list Z) N :
  (length data0 < N)%nat ->
  forall n i st,
    (i <= length data0 < i + n)%nat ->
    (exists c, block st (Ptr b) = Some c /\ length c = N) ->
    for_loop n i (fun i _ => x <- index data0 i ;; store (Ptr b) i x) tt st =
    Undefined.
Proof.
  intros HN. induction n as [|n IH]; intros i st Hi (c & Hc & Hlen); [lia|].
  cbn [for_loop].
  destruct (decide (i = length data0)) as [-> | Hne].
  - apply bind_Undefined. unfold bind, index.
    now rewrite (lookup_ge_None_2 data0 (length data0)) by lia.
  - destruct (lookup_lt_is_Some_2 data0 i ltac:(lia)) as [x Hx].
    erewrite bind_Ok.
    2: { unfold bind, index. rewrite Hx.
         apply (store_run _ _ c); [exact Hc | lia]. }
    apply IH; [lia|].
    eexists. split; [apply (block_set_block _ _ c); exact Hc|].
    now rewrite length_insert.
Qed.

(** Every outcome of initTexture_i. *)
Lemma initTexture_i_outcome st w0 h0 (data0 : list Z) :
  is_uint16 w0 -> is_uint16 h0 ->
  initTexture_i w0 h0 data0 st =
  if INT_MAX <? w0 * h0 then Undefined
  else if can_alloc st (w0 * h0 * sizeof_uint32)
       then if w0 * h0 <=? Z.of_nat (length data0)
            then Ok (mkTexture w0 h0 (Ptr (length (heap st))),
                     alloc_block (map to_uint32 (take (Z.to_nat (w0 * h0)) data0))
                                 (w0 * h0 * sizeof_uint32) st)
            else Undefined
       else AssertFail.
Proof.
  intros Hw Hh.
  assert (0 <= w0 * h0) as Hnn by (apply Z.mul_nonneg_nonneg; [apply Hw | apply Hh]).
  unfold initTexture_i.
  unfold bind at 1. rewrite (extent_run _ _ _ Hw Hh).
  destruct (Z.ltb_spec INT_MAX (w0 * h0)); [reflexivity|].
  unfold bind at 1. rewrite calloc_run.
  destruct (can_alloc st (w0 * h0 * sizeof_uint32)); [|reflexivity].
  unfold bind at 1. simpl assert. cbv beta iota.
  destruct (Z.leb_spec (w0 * h0) (Z.of_nat (length data0))) as [Hlen | Hlen].
  - erewrite bind_Ok.
    2: { apply (copy_loop_prefix _ _ (replicate (Z.to_nat (w0 * h0)) 0)).
         - apply block_alloc_block.
         - rewrite length_replicate. lia.
         - lia. }
    unfold ret. rewrite drop_ge by (rewrite length_replicate; lia).
    now rewrite app_nil_r, set_block_alloc_block.
  - apply bind_Undefined.
    apply (copy_loop_short _ _ (Z.to_nat (w0 * h0))); [lia | lia |].
    eexists. split; [apply block_alloc_block | apply length_replicate].
Qed.

(** X5: initTexture_i cannot check the length of the array it is given.  With
    more than [w * h] samples it copies the first [w * h]; with fewer it
    reads past the end of the array: undefined behaviour. *)
Theorem initTexture_i_sample_length st w0 h0 (data0 : list Z) :
  is_uint16 w0 -> is_uint16 h0 ->
  w0 * h0 <= INT_MAX ->
  can_alloc st (w0 * h0 * sizeof_uint32) = true ->
  Forall is_uint32 data0 ->
  (w0 * h0 <= Z.of_nat (length data0) ->
   initTexture_i w0 h0 data0 st =
   Ok (mkTexture w0 h0 (Ptr (length (heap st))),
       alloc_block (take (Z.to_nat (w0 * h0)) data0) (w0 * h0 * sizeof_uint32) st)) /\
  (Z.of_nat (length data0) < w0 * h0 ->
   initTexture_i w0 h0 data0 st = Undefined).
Proof.
  intros Hw Hh Hfit Hmem Hdata.
  rewrite (initTexture_i_outcome _ _ _ _ Hw Hh), Hmem.
  destruct (Z.ltb_spec INT_MAX (w0 * h0)); [lia|].
  split; intros Hlen.
  - destruct (Z.leb_spec (w0 * h0) (Z.of_nat (length data0))); [|lia].
    rewrite map_to_uint32_id; [reflexivity|]. now apply Forall_take.
  - destruct (Z.leb_spec (w0 * h0) (Z.of_nat (length data0))); [lia | reflexivity].
Qed.

Lemma initTexture_i_sample_length_witness :
  initTexture_i 1 2 [7; 8; 9] (fresh_state 64) =
    Ok (mkTexture 1 2 (Ptr 0), alloc_block [7; 8] 8 (fresh_state 64)) /\
  initTexture_i 1 2 [7] (fresh_state 64) = Undefined.
Proof.
  assert (is_uint16 1) as H1 by (unfold is_uint16, UINT16_MAX; lia).
  assert (is_uint16 2) as H2 by (unfold is_uint16, UINT16_MAX; lia).
  split.
  - destruct (initTexture_i_sample_length (fresh_state 64) 1 2 [7; 8; 9] H1 H2)
      as [Hlong _].
    + unfold INT_MAX. lia.
    + reflexivity.
    + repeat constructor; unfold UINT32_MAX; lia.
    + apply Hlong. simpl. lia.
  - destruct (initTexture_i_sample_length (fresh_state 64) 1 2 [7] H1 H2)
      as [_ Hshort].
    + unfold INT_MAX. lia.
    + reflexivity.
    + repeat constructor; unfold UINT32_MAX; lia.
    + apply Hshort. simpl. lia.
Defined.

(** ** readTexture on files that end early *)

Lemma for_loop_split {L} (body : nat -> L -> M L) k1 k2 : forall i acc st,
  for_loop (k1 + k2) i body acc st =
  bind (for_loop k1 i body acc) (fun a => for_loop k2 (i + k1) body a) st.
Proof.
  induction k1 as [|k1 IH]; intros i acc st.
  - simpl. unfold bind, ret. now rewrite Nat.add_0_r.
  - simpl. unfold bind.
    destruct (body i acc st) as [[a s]| |]; [|reflexivity..].
    rewrite IH. unfold bind.
    now replace (S i + k1)%nat with (i + S k1)%nat by lia.
Qed.

Lemma csv_fields_cons f fs :
  csv_fields (f :: fs) = f ++ comma :: csv_fields fs.
Proof. unfold csv_fields. simpl. now rewrite <- app_assoc. Qed.

Lemma set_fbuf_id fp : set_fbuf (fbuf fp) fp = fp.
Proof. now destruct fp. Qed.

(** The header conversions on a record in the writer's format. *)
Lemma fscanf_hu_hu_csv fp t fw fh fds :
  fbuf fp = csv_fields (fw :: fh :: fds) ->
  decimal_field fw -> decimal_field fh ->
  dec_value fw <= UINT16_MAX -> dec_value fh <= UINT16_MAX ->
  fscanf_hu_hu fp t =
  Ok (mkTexture (dec_value fw) (dec_value fh) (data t), set_fbuf (csv_fields fds) fp).
Proof.
  intros Hbuf Hfw Hfh Hw Hh.
  unfold fscanf_hu_hu. rewrite Hbuf, !csv_fields_cons.
  rewrite (scan_unsigned_field _ fw _ Hfw (comma_no_digit _) Hw) by (now compute).
  rewrite match_char_comma.
  rewrite (scan_unsigned_field _ fh _ Hfh (comma_no_digit _) Hh) by (now compute).
  now rewrite match_char_comma.
Qed.

(** The data conversions while fields are left. *)
Lemma scan_loop_csv st b cells0 fds fp k :
  block st (Ptr b) = Some cells0 ->
  (k <= length cells0)%nat -> (k <= length fds)%nat ->
  Forall decimal_field fds ->
  Forall (fun f => dec_value f <= UINT32_MAX) fds ->
  fbuf fp = csv_fields fds ->
  for_loop k 0 (fun i fp => fscanf_u fp (Ptr b) i) fp st =
  Ok (set_fbuf (csv_fields (drop k fds)) fp,
      set_block b (map dec_value (take k fds) ++ drop k cells0) st).
Proof.
  intros Hb Hkc Hkf Hdec Hmax Hbuf.
  destruct (for_loop_inv
    (fun j fp' s =>
       s = set_block b (map dec_value (take j fds) ++ drop j cells0) st /\
       fp' = set_fbuf (csv_fields (drop j fds)) fp)
    (fun i fp => fscanf_u fp (Ptr b) i)
    k 0%nat fp st) as (fp' & s & E & (-> & ->)).
  - split.
    + simpl. rewrite drop_0. symmetry. now apply set_block_id.
    + rewrite drop_0, <- Hbuf. symmetry. apply set_fbuf_id.
  - intros j a s Hj (-> & ->).
    destruct (lookup_lt_is_Some_2 fds j ltac:(lia)) as [f Hf].
    pose proof (Forall_lookup_1 _ _ _ _ Hdec Hf) as Hfd.
    pose proof (Forall_lookup_1 _ _ _ _ Hmax Hf) as Hfm. simpl in Hfm.
    eexists _, _. split.
    + unfold fscanf_u. cbn [fbuf set_fbuf].
      rewrite (drop_S _ _ _ Hf), csv_fields_cons.
      rewrite (scan_unsigned_field _ f _ Hfd (comma_no_digit _) Hfm) by (now compute).
      unfold bind. rewrite store_fill; [|assumption | | lia].
      2: { rewrite length_map, length_take. lia. }
      rewrite match_char_comma. reflexivity.
    + rewrite (dec_value_uint32 _ Hfd Hfm), (take_S_r _ _ _ Hf), map_app.
      split; reflexivity.
  - exact E.
Qed.

(** At the end of the file every conversion fails and stores nothing. *)
Lemma scan_loop_eof p fp : 
  fbuf fp = [] ->
  forall n i st, for_loop n i (fun i fp => fscanf_u fp p i) fp st = Ok (fp, st).
Proof.
  intros Hbuf. induction n as [|n IH]; intros i st; [reflexivity|].
  cbn [for_loop]. erewrite bind_Ok; [apply IH|].
  unfold fscanf_u. rewrite Hbuf. simpl. unfold ret.
  now rewrite <- Hbuf, set_fbuf_id.
Qed.

(** X8: readTexture does not notice a file that ends early.  On a record in
    the writer's format with any number of data fields the call returns;
    the cells for which a field is left hold the field values, and every
    further cell holds what the memory [malloc] returned happened to
    contain. *)
Theorem readTexture_short_file st t path contents fw fh fds :
  files st !! path = Some contents ->
  record_fields contents fw fh fds [comma] ->
  dec_value fw * dec_value fh <= INT_MAX ->
  can_alloc st (dec_value fw * dec_value fh * sizeof_uint32) = true ->
  readTexture t path st =
  Ok (mkTexture (dec_value fw) (dec_value fh) (Ptr (length (heap st))),
      alloc_block
        (map dec_value (take (Z.to_nat (dec_value fw * dec_value fh)) fds) ++
         drop (length fds) (junk_cells st (Z.to_nat (dec_value fw * dec_value fh))))
        (dec_value fw * dec_value fh * sizeof_uint32) st).
Proof.
  intros Hfile (Hc & Hfw & Hfh & Hfds & _ & Hw & Hh & Hmax) Hfit Hmem.
  rewrite <- csv_fields_sep in Hc by discriminate. subst contents.
  pose proof (dec_value_uint16 _ Hfw Hw) as Hw16.
  pose proof (dec_value_uint16 _ Hfh Hh) as Hh16.
  unfold readTexture. unfold bind at 1. unfold fopen. rewrite Hfile.
  unfold bind at 1.
  rewrite (fscanf_hu_hu_csv (mkFILE path ReadMode (csv_fields (fw :: fh :: fds)))
             t fw fh fds eq_refl Hfw Hfh Hw Hh).
  simpl lift. cbv beta iota.
  unfold bind at 1. cbn [w h data]. rewrite (extent_run _ _ _ Hw16 Hh16).
  destruct (Z.ltb_spec INT_MAX (dec_value fw * dec_value fh)); [lia|].
  set (n := dec_value fw * dec_value fh) in *.
  assert (0 <= n) as Hn0.
  { apply Z.mul_nonneg_nonneg; [apply Hw16 | apply Hh16]. }
  assert (to_size_t (n * sizeof_uint32) = n * sizeof_uint32) as ->.
  { unfold to_size_t, SIZE_MAX, sizeof_uint32. apply Z.mod_small.
    unfold INT_MAX in Hfit. lia. }
  unfold bind at 1. rewrite malloc_run, Hmem.
  unfold bind at 1. simpl assert. cbv beta iota.
  rewrite (Z.div_mul n sizeof_uint32) by (unfold sizeof_uint32; lia).
  fold (junk_cells st (Z.to_nat n)).
  assert (length (junk_cells st (Z.to_nat n)) = Z.to_nat n) as Hlen0.
  { unfold junk_cells. now rewrite length_map, length_seq. }
  set (k := Nat.min (Z.to_nat n) (length fds)).
  replace (Z.to_nat n) with (k + (Z.to_nat n - k))%nat at 1 by lia.
  unfold bind at 1. rewrite for_loop_split.
  erewrite bind_Ok.
  2: { apply (scan_loop_csv _ _ (junk_cells st (Z.to_nat n)) fds); try assumption.
       - apply block_alloc_block.
       - lia.
       - lia.
       - reflexivity. }
  destruct (Nat.le_gt_cases (Z.to_nat n) (length fds)) as [Hlong | Hshort].
  - replace k with (Z.to_nat n) by lia. rewrite Nat.sub_diag. cbn [for_loop].
    unfold ret, bind, fclose. cbn [fmd set_fbuf].
    rewrite set_block_alloc_block.
    rewrite !drop_ge by lia. reflexivity.
  - replace k with (length fds) by lia.
    rewrite drop_all, scan_loop_eof by reflexivity.
    unfold ret, bind, fclose. cbn [fmd set_fbuf].
    rewrite set_block_alloc_block.
    rewrite (take_ge fds (Z.to_nat n)) by lia. rewrite firstn_all. reflexivity.
Qed.

Lemma readTexture_short_file_witness :
  readTexture (mkTexture 0 0 NULL) "t.csv"
    (set_files {[ "t.csv"%string := list_ascii_of_string "2,2,5," ]} (fresh_state 64)) =
  Ok (mkTexture 2 2 (Ptr 0),
      alloc_block [5; 3735928559; 3735928559; 3735928559] 16
        (set_files {[ "t.csv"%string := list_ascii_of_string "2,2,5," ]}
                   (fresh_state 64))).
Proof.
  refine (readTexture_short_file
            (set_files {[ "t.csv"%string := list_ascii_of_string "2,2,5," ]}
                       (fresh_state 64))
            (mkTexture 0 0 NULL) "t.csv"
            (list_ascii_of_string "2,2,5,")
            (list_ascii_of_string "2") (list_ascii_of_string "2")
            [list_ascii_of_string "5"] eq_refl _ _ eq_refl).
  - unfold record_fields, decimal_field.
    repeat (split; [first [reflexivity | discriminate | exact I
                          | (repeat constructor; discriminate)
                          | (vm_compute; discriminate)] |]).
    repeat constructor; vm_compute; discriminate.
  - vm_compute. discriminate.
Defined.

(** X9: On an empty file no conversion succeeds: readTexture assigns neither
    [w] nor [h], so the texture keeps the extents the caller's struct held
    before the call and gets a buffer of that many cells, none of them
    written. *)
Theorem readTexture_empty_file st t path :
  files st !! path = Some [] ->
  is_uint16 (w t) -> is_uint16 (h t) ->
  readTexture t path st =
  if INT_MAX <? w t * h t then Undefined
  else if can_alloc st (w t * h t * sizeof_uint32)
       then Ok (mkTexture (w t) (h t) (Ptr (length (heap st))),
                alloc_block (junk_cells st (Z.to_nat (w t * h t)))
                            (w t * h t * sizeof_uint32) st)
       else AssertFail.
Proof.
  intros Hfile Hw Hh.
  unfold readTexture. unfold bind at 1. unfold fopen. rewrite Hfile.
  unfold bind at 1. cbn [lift fscanf_hu_hu fbuf scan_unsigned skip_space scan_sign].
  cbv beta iota. unfold bind at 1. rewrite (extent_run _ _ _ Hw Hh).
  destruct (Z.ltb_spec INT_MAX (w t * h t)) as [|Hfit]; [reflexivity|].
  set (n := w t * h t) in *.
  assert (0 <= n) as Hn0 by (apply Z.mul_nonneg_nonneg; [apply Hw | apply Hh]).
  assert (to_size_t (n * sizeof_uint32) = n * sizeof_uint32) as ->.
  { unfold to_size_t, SIZE_MAX, sizeof_uint32. apply Z.mod_small.
    unfold INT_MAX in Hfit. lia. }
  unfold bind at 1. rewrite malloc_run.
  destruct (can_alloc st (n * sizeof_uint32)); [|reflexivity].
  unfold bind at 1. simpl assert. cbv beta iota.
  rewrite (Z.div_mul n sizeof_uint32) by (unfold sizeof_uint32; lia).
  unfold bind at 1. rewrite scan_loop_eof by reflexivity.
  reflexivity.
Qed.

Lemma readTexture_empty_file_witness :
  readTexture (mkTexture 1 3 NULL) "e.csv"
    (set_files {[ "e.csv"%string := [] ]} (fresh_state 64)) =
  Ok (mkTexture 1 3 (Ptr 0),
      alloc_block [3735928559; 3735928559; 3735928559] 12
        (set_files {[ "e.csv"%string := [] ]} (fresh_state 64))).
Proof.
  refine (readTexture_empty_file
            (set_files {[ "e.csv"%string := [] ]} (fresh_state 64))
            (mkTexture 1 3 NULL) "e.csv" eq_refl _ _);
    unfold is_uint16, UINT16_MAX; simpl; lia.
Defined.

(** ** What readTexture keeps, whatever the file holds *)

Lemma for_loop_preserves {L} (I : L -> State -> Prop) (body : nat -> L -> M L) :
  (forall j a s a' s', I a s -> body j a s = Ok (a', s') -> I a' s') ->
  forall k i acc st a' s',
    I acc st -> for_loop k i body acc st = Ok (a', s') -> I a' s'.
Proof.
  intros Hstep. induction k as [|k IH]; intros i acc st a' s' Hacc E.
  - inversion E; now subst.
  - cbn [for_loop] in E. unfold bind in E.
    destruct (body i acc st) as [[a1 s1]| |] eqn:E1; try discriminate.
    eapply IH; [|exact E]. eapply Hstep; eassumption.
Qed.

Lemma scan_digits_nonneg s : forall acc,
  0 <= acc -> 0 <= fst (scan_digits acc s).
Proof.
  induction s as [|c s IH]; intros acc Hacc; simpl; [assumption|].
  destruct (is_digit c) eqn:Hc; [|assumption].
  apply IH. apply is_digit_range in Hc. unfold digit_val. lia.
Qed.

(** A conversion only ever assigns a value of the object's type. *)
Lemma scan_unsigned_range max s v r :
  scan_unsigned max s = Conv v r -> 0 <= v <= max.
Proof.
  unfold scan_unsigned.
  destruct (scan_sign (skip_space s)) as [neg s2].
  destruct s2 as [|c s2']; [discriminate|].
  destruct (is_digit c); [|discriminate].
  pose proof (scan_digits_nonneg (c :: s2') 0 ltac:(lia)) as Hm.
  destruct (scan_digits 0 (c :: s2')) as [m rest]. simpl in Hm.
  destruct (Z.leb_spec (strtoul_value neg m) max) as [Hle|]; [|discriminate].
  intros E. inversion E; subst; clear E. split; [|assumption].
  unfold strtoul_value, ULONG_MAX.
  destruct (18446744073709551615 <? m); [lia|].
  destruct neg; [|assumption].
  apply Z.mod_pos_bound. lia.
Qed.

Lemma fscanf_hu_hu_range fp t t' fp' :
  is_uint16 (w t) -> is_uint16 (h t) ->
  fscanf_hu_hu fp t = Ok (t', fp') ->
  is_uint16 (w t') /\ is_uint16 (h t') /\ data t' = data t /\ fmd fp' = fmd fp.
Proof.
  intros Hw Hh. unfold fscanf_hu_hu.
  assert (forall a b r,
            is_uint16 a -> is_uint16 b ->
            Ok (mkTexture a b (data t), set_fbuf r fp) = Ok (t', fp') ->
            is_uint16 (w t') /\ is_uint16 (h t') /\ data t' = data t /\
            fmd fp' = fmd fp) as Hdone.
  { intros a b r Ha Hb E. inversion E; subst. cbn [w h data fmd set_fbuf]. auto. }
  destruct (scan_unsigned UINT16_MAX (fbuf fp)) as [v1 r1 | r1 |] eqn:E1;
    [| destruct t; apply Hdone; assumption | discriminate].
  apply scan_unsigned_range in E1. cbn [w h data].
  destruct (match_char comma r1) as [r2|]; [| now apply Hdone].
  destruct (scan_unsigned UINT16_MAX r2) as [v2 r3 | r3 |] eqn:E2;
    [| now apply Hdone | discriminate].
  apply scan_unsigned_range in E2.
  destruct (match_char comma r3); now apply Hdone.
Qed.

Lemma to_uint32_range v : is_uint32 (to_uint32 v).
Proof.
  unfold is_uint32, to_uint32, UINT32_MAX.
  pose proof (Z.mod_pos_bound v (4294967295 + 1) ltac:(lia)). lia.
Qed.

Lemma junk_cells_uint32 st n : Forall is_uint32 (junk_cells st n).
Proof.
  unfold junk_cells. apply Forall_map, Forall_forall.
  intros i _. apply to_uint32_range.
Qed.

(** One data conversion writes at most one cell of the block it is given
    and nothing else. *)
Lemma fscanf_u_block st0 bytes n fp i fp' s s' :
  (exists cells, s = alloc_block cells bytes st0 /\
                 length cells = n /\ Forall is_uint32 cells) ->
  fscanf_u fp (Ptr (length (heap st0))) i s = Ok (fp', s') ->
  (exists cells, s' = alloc_block cells bytes st0 /\
                 length cells = n /\ Forall is_uint32 cells) /\
  fmd fp' = fmd fp.
Proof.
  intros (cells & -> & Hlen & Hcells). unfold fscanf_u.
  destruct (scan_unsigned UINT32_MAX (fbuf fp)) as [v r1 | r1 |];
    [| intros E; inversion E; subst; split; [eauto | reflexivity] | discriminate].
  unfold bind, store. rewrite block_alloc_block.
  destruct (decide (i < length cells)%nat); [|discriminate].
  change (set_heap (<[?b := Some ?c]> (heap ?s)) (avail ?s) ?s) with (set_block b c s).
  rewrite set_block_alloc_block.
  assert (Forall is_uint32 (<[i := to_uint32 v]> cells)) as Hc'.
  { apply Forall_insert; [assumption | apply to_uint32_range]. }
  destruct (match_char comma r1); intros E; inversion E; subst;
    (split; [eexists; split; [reflexivity|]; split;
               [now rewrite length_insert | assumption]
            | reflexivity]).
Qed.

(** The state readTexture returns in. *)
Lemma readTexture_returns st t path t' st' :
  is_uint16 (w t) -> is_uint16 (h t) ->
  readTexture t path st = Ok (t', st') ->
  exists cells,
    data t' = Ptr (length (heap st)) /\
    st' = alloc_block cells (w t' * h t' * sizeof_uint32) st /\
    populated st' t' cells /\
    w t' * h t' <= INT_MAX /\
    is_Some (files st !! path).
Proof.
  intros Hw Hh E. unfold readTexture in E.
  unfold bind at 1 in E. unfold fopen in E.
  destruct (files st !! path) as [c|]; [|discriminate].
  unfold bind at 1 in E.
  destruct (fscanf_hu_hu (mkFILE path ReadMode c) t) as [[t1 fp1]| |] eqn:Eh;
    try discriminate.
  apply (fscanf_hu_hu_range _ _ _ _ Hw Hh) in Eh.
  destruct Eh as (Hw1 & Hh1 & _ & Hmd1).
  simpl lift in E. cbv beta iota in E.
  unfold bind at 1 in E. rewrite (extent_run _ _ _ Hw1 Hh1) in E.
  destruct (Z.ltb_spec INT_MAX (w t1 * h t1)) as [|Hfit]; [discriminate|].
  set (n := w t1 * h t1) in *.
  assert (0 <= n) as Hn0 by (apply Z.mul_nonneg_nonneg; [apply Hw1 | apply Hh1]).
  assert (to_size_t (n * sizeof_uint32) = n * sizeof_uint32) as Hsz.
  { unfold to_size_t, SIZE_MAX, sizeof_uint32. apply Z.mod_small.
    unfold INT_MAX in Hfit. lia. }
  rewrite Hsz in E. unfold bind at 1 in E. rewrite malloc_run in E.
  destruct (can_alloc st (n * sizeof_uint32)); [|discriminate].
  unfold bind at 1 in E. simpl assert in E. cbv beta iota in E.
  rewrite (Z.div_mul n sizeof_uint32) in E by (unfold sizeof_uint32; lia).
  fold (junk_cells st (Z.to_nat n)) in E.
  unfold bind at 1 in E.
  destruct (for_loop (Z.to_nat n) 0
              (fun i fp => fscanf_u fp (Ptr (length (heap st))) i) fp1
              (alloc_block (junk_cells st (Z.to_nat n)) (n * sizeof_uint32) st))
    as [[fp2 s2]| |] eqn:El; try discriminate.
  apply (for_loop_preserves
           (fun fp s =>
              (exists cells, s = alloc_block cells (n * sizeof_uint32) st /\
                             length cells = Z.to_nat n /\ Forall is_uint32 cells) /\
              fmd fp = ReadMode)) in El.
  - destruct El as ((cells & -> & Hlen & Hcells) & Hmd2).
    unfold bind, fclose, ret in E. rewrite Hmd2 in E.
    inversion E; subst; clear E. cbn [w h data].
    exists cells. split; [reflexivity|]. split; [reflexivity|].
    split; [|split; [assumption | eauto]].
    unfold populated. cbn [w h data]. rewrite block_alloc_block.
    split; [assumption|]. split; [assumption|]. split; [reflexivity|].
    split; [fold n; lia | assumption].
  - intros j a s a' s' [Hs Hmd] Eb.
    destruct (fscanf_u_block _ _ _ _ _ _ _ _ Hs Eb) as [Hs' Hmd'].
    split; [exact Hs' | congruence].
  - split; [|exact Hmd1].
    eexists. split; [reflexivity|]. split; [|apply junk_cells_uint32].
    unfold junk_cells. now rewrite length_map, length_seq.
Qed.

(** X7: Whatever the file holds and whatever the texture held: readTexture
    returns only if the file exists, and then the texture is populated, its
    data is a block that did not exist before, of exactly [w * h] cells;
    every block that existed is where it was, with its cells, freed or not;
    no file has changed; the free memory has gone down by the size of the
    buffer.  A buffer the texture owned before the call is neither freed
    nor reachable from the texture any more. *)
Theorem readTexture_populates st t path t' st' :
  is_uint16 (w t) -> is_uint16 (h t) ->
  readTexture t path st = Ok (t', st') ->
  exists cells,
    data t' = Ptr (length (heap st)) /\
    heap st' = heap st ++ [Some cells] /\
    populated st' t' cells /\
    w t' * h t' <= INT_MAX /\
    files st' = files st /\
    avail st' = avail st - w t' * h t' * sizeof_uint32 /\
    is_Some (files st !! path).
Proof.
  intros Hw Hh E.
  destruct (readTexture_returns _ _ _ _ _ Hw Hh E)
    as (cells & Hd & Hst & Hpop & Hfit & Hfile).
  exists cells. rewrite Hst at 1 3 4. simpl. auto 10.
Qed.

Lemma readTexture_populates_witness :
  exists t' st' cells,
    readTexture demo_texture "t.csv"
      (set_files {[ "t.csv"%string := list_ascii_of_string "1,1,x" ]} demo_state)
      = Ok (t', st') /\
    data t' = Ptr 1 /\ heap st' = [Some demo_cells; Some cells] /\
    populated st' t' cells.
Proof.
  destruct (readTexture demo_texture "t.csv"
              (set_files {[ "t.csv"%string := list_ascii_of_string "1,1,x" ]} demo_state))
    as [[t' st']| |] eqn:E; [|vm_compute in E; discriminate..].
  assert (is_uint16 2) as H2 by (unfold is_uint16, UINT16_MAX; lia).
  destruct (readTexture_populates _ demo_texture _ _ _ H2 H2 E)
    as (cells & Hd & Hheap & Hpop & _).
  exists t', st', cells.
  split; [reflexivity|]. split; [exact Hd|]. split; [exact Hheap | exact Hpop].
Defined.

(** ** What the initialisers keep, whatever the samples *)

Lemma store_alloc_block st0 bytes n i v s s' :
  (exists cells, s = alloc_block cells bytes st0 /\
                 length cells = n /\ Forall is_uint32 cells) ->
  store (Ptr (length (heap st0))) i v s = Ok (tt, s') ->
  exists cells, s' = alloc_block cells bytes st0 /\
                length cells = n /\ Forall is_uint32 cells.
Proof.
  intros (cells & -> & Hlen & Hcells). unfold store.
  rewrite block_alloc_block.
  destruct (decide (i < length cells)%nat); [|discriminate].
  change (set_heap (<[?b := Some ?c]> (heap ?s)) (avail ?s) ?s) with (set_block b c s).
  rewrite set_block_alloc_block. intros E. inversion E; subst.
  eexists. split; [reflexivity|]. split; [now rewrite length_insert|].
  apply Forall_insert; [assumption | apply to_uint32_range].
Qed.

Lemma initTexture_i_returns st w0 h0 (data0 : list Z) t st' :
  is_uint16 w0 -> is_uint16 h0 ->
  initTexture_i w0 h0 data0 st = Ok (t, st') ->
  t = mkTexture w0 h0 (Ptr (length (heap st))) /\
  w0 * h0 <= INT_MAX /\
  w0 * h0 <= Z.of_nat (length data0) /\
  st' = alloc_block (map to_uint32 (take (Z.to_nat (w0 * h0)) data0))
                    (w0 * h0 * sizeof_uint32) st.
Proof.
  intros Hw Hh E. rewrite (initTexture_i_outcome _ _ _ _ Hw Hh) in E.
  destruct (Z.ltb_spec INT_MAX (w0 * h0)); [discriminate|].
  destruct (can_alloc st (w0 * h0 * sizeof_uint32)); [|discriminate].
  destruct (Z.leb_spec (w0 * h0) (Z.of_nat (length data0))); [|discriminate].
  inversion E; subst. auto.
Qed.

Lemma initTexture_f_returns st w0 h0 (data0 : list float) t st' :
  is_uint16 w0 -> is_uint16 h0 ->
  initTexture_f w0 h0 data0 st = Ok (t, st') ->
  t = mkTexture w0 h0 (Ptr (length (heap st))) /\
  w0 * h0 <= INT_MAX /\
  exists cells,
    st' = alloc_block cells (w0 * h0 * sizeof_uint32) st /\
    length cells = Z.to_nat (w0 * h0) /\ Forall is_uint32 cells.
Proof.
  intros Hw Hh E. unfold initTexture_f in E.
  unfold bind at 1 in E. rewrite (extent_run _ _ _ Hw Hh) in E.
  destruct (Z.ltb_spec INT_MAX (w0 * h0)); [discriminate|].
  unfold bind at 1 in E. rewrite calloc_run in E.
  destruct (can_alloc st (w0 * h0 * sizeof_uint32)); [|discriminate].
  unfold bind at 1 in E. simpl assert in E. cbv beta iota in E.
  unfold bind at 1 in E.
  destruct (for_loop (Z.to_nat (w0 * h0)) 0 _ tt _) as [[[] s1]| |] eqn:El;
    try discriminate.
  unfold ret in E. inversion E; subst; clear E.
  split; [reflexivity|]. split; [assumption|].
  apply (for_loop_preserves
           (fun (_ : unit) s =>
              exists cells, s = alloc_block cells (w0 * h0 * sizeof_uint32) st /\
                            length cells = Z.to_nat (w0 * h0) /\
                            Forall is_uint32 cells)) in El.
  - exact El.
  - intros j [] s [] s' Hs Eb. unfold bind at 1 in Eb. unfold index in Eb.
    destruct (data0 !! j) as [x|]; [|discriminate].
    unfold bind at 1 in Eb. unfold lift in Eb.
    destruct (scale_sample x) as [v| |]; try discriminate.
    eapply store_alloc_block; eassumption.
  - eexists. split; [reflexivity|]. split; [apply length_replicate|].
    apply Forall_forall. intros z Hz. apply elem_of_replicate in Hz.
    destruct Hz as [-> _]. unfold is_uint32, UINT32_MAX. lia.
Qed.

(** X6: Whatever the sample array: when an initialiser returns, the texture
    has the extents passed and is populated; its data is a block that did
    not exist before, of exactly [w * h] cells; every block that existed is
    where it was, with its cells; no file has changed; the free memory has
    gone down by the size of the buffer.  An initialiser never frees: a
    buffer the texture owned before the call stays allocated. *)
Theorem initialisers_populate st w0 h0 :
  is_uint16 w0 -> is_uint16 h0 ->
  (forall (data0 : list Z) t st',
     initTexture_i w0 h0 data0 st = Ok (t, st') ->
     exists cells,
       w t = w0 /\ h t = h0 /\ data t = Ptr (length (heap st)) /\
       heap st' = heap st ++ [Some cells] /\
       populated st' t cells /\
       w0 * h0 <= INT_MAX /\
       files st' = files st /\
       avail st' = avail st - w0 * h0 * sizeof_uint32) /\
  (forall (data0 : list float) t st',
     initTexture_f w0 h0 data0 st = Ok (t, st') ->
     exists cells,
       w t = w0 /\ h t = h0 /\ data t = Ptr (length (heap st)) /\
       heap st' = heap st ++ [Some cells] /\
       populated st' t cells /\
       w0 * h0 <= INT_MAX /\
       files st' = files st /\
       avail st' = avail st - w0 * h0 * sizeof_uint32).
Proof.
  intros Hw Hh.
  assert (0 <= w0 * h0) as Hnn by (apply Z.mul_nonneg_nonneg; [apply Hw | apply Hh]).
  split.
  - intros data0 t st' E.
    destruct (initTexture_i_returns _ _ _ _ _ _ Hw Hh E) as (-> & Hfit & Hlen & ->).
    eexists. cbn [w h data]. repeat (split; [reflexivity|]).
    split; [|split; [assumption | split; reflexivity]].
    unfold populated. cbn [w h data]. rewrite block_alloc_block.
    split; [assumption|]. split; [assumption|]. split; [reflexivity|].
    split; [rewrite length_map, length_take; lia|].
    apply Forall_map, Forall_forall. intros z _. apply to_uint32_range.
  - intros data0 t st' E.
    destruct (initTexture_f_returns _ _ _ _ _ _ Hw Hh E)
      as (-> & Hfit & cells & -> & Hlen & Hcells).
    exists cells. cbn [w h data]. repeat (split; [reflexivity|]).
    split; [|split; [assumption | split; reflexivity]].
    unfold populated. cbn [w h data]. rewrite block_alloc_block.
    split; [assumption|]. split; [assumption|]. split; [reflexivity|].
    split; [lia | assumption].
Qed.

Lemma initialisers_populate_witness :
  exists t st' cells,
    initTexture_i 2 2 demo_cells demo_state = Ok (t, st') /\
    data t = Ptr 1 /\ heap st' = [Some demo_cells; Some cells] /\
    populated st' t cells /\ populated st' demo_texture demo_cells.
Proof.
  assert (is_uint16 2) as H2 by (unfold is_uint16, UINT16_MAX; lia).
  destruct (initTexture_i 2 2 demo_cells demo_state) as [[t st']| |] eqn:E;
    [|vm_compute in E; discriminate..].
  destruct (initialisers_populate demo_state 2 2 H2 H2) as [Hi _].
  destruct (Hi demo_cells t st' E) as (cells & _ & _ & Hd & Hheap & Hpop & _).
  exists t, st', cells.
  split; [reflexivity|]. split; [exact Hd|]. split; [exact Hheap|].
  split; [exact Hpop|].
  unfold populated, block. rewrite Hheap. simpl.
  repeat split; try (unfold is_uint16, UINT16_MAX; lia).
  repeat constructor; unfold UINT32_MAX; lia.
Defined.

(** ** Release, and use after release *)

Lemma writeTexture_dead st w0 h0 p path :
  is_uint16 w0 -> is_uint16 h0 -> 0 < w0 * h0 ->
  block st p = None ->
  writeTexture (mkTexture w0 h0 p) path st =
  if writable st path then Undefined else AssertFail.
Proof.
  intros Hw Hh Hpos Hb. unfold writeTexture. unfold bind at 1. unfold fopen.
  destruct (writable st path); [|reflexivity].
  unfold bind at 1. cbn [w h data]. rewrite (extent_run _ _ _ Hw Hh).
  destruct (INT_MAX <? w0 * h0); [reflexivity|].
  apply bind_Undefined.
  destruct (Z.to_nat (w0 * h0)) as [|k] eqn:Ek; [lia|].
  cbn [for_loop]. apply bind_Undefined.
  unfold bind, load. now rewrite block_set_files, Hb.
Qed.

Lemma block_freed st b :
  (b < length (heap st))%nat ->
  forall av, block (set_heap (<[b := None]> (heap st)) av st) (Ptr b) = None.
Proof.
  intros Hb av. unfold block, set_heap. simpl.
  now rewrite list_lookup_insert_eq.
Qed.

(** X10: After freeTexture the texture must be populated again before it is
    used.  Writing the released texture (null data pointer), or a copy of
    the struct taken before the release (dangling pointer), is undefined
    behaviour as soon as [w * h] is not zero; releasing such a copy is a
    double free. *)
Theorem use_after_free st t t1 st1 :
  is_uint16 (w t) -> is_uint16 (h t) -> 0 < w t * h t ->
  freeTexture t st = Ok (t1, st1) ->
  (forall path,
     writeTexture t1 path st1 = if writable st1 path then Undefined else AssertFail) /\
  (forall path,
     writeTexture t path st1 = if writable st1 path then Undefined else AssertFail) /\
  (data t <> NULL -> freeTexture t st1 = Undefined).
Proof.
  intros Hw Hh Hpos E. rewrite freeTexture_run in E.
  destruct t as [w0 h0 p]. cbn [w h data] in *.
  destruct p as [|b].
  - inversion E; subst; clear E.
    split; [|split; [|congruence]]; intros path;
      now apply writeTexture_dead.
  - destruct (block st (Ptr b)) as [cells|] eqn:Hb; [|discriminate].
    inversion E; subst; clear E.
    apply block_Some, lookup_lt_Some in Hb.
    split; [|split].
    + intros path. now apply writeTexture_dead.
    + intros path. apply writeTexture_dead; try assumption.
      now apply block_freed.
    + intros _. rewrite freeTexture_run. cbn [data].
      now rewrite block_freed.
Qed.

Lemma use_after_free_witness :
  exists t1 st1,
    freeTexture demo_texture demo_state = Ok (t1, st1) /\
    writeTexture t1 "t.csv" st1 = Undefined /\
    writeTexture demo_texture "t.csv" st1 = Undefined /\
    freeTexture demo_texture st1 = Undefined.
Proof.
  assert (is_uint16 2) as H2 by (unfold is_uint16, UINT16_MAX; lia).
  destruct (freeTexture demo_texture demo_state) as [[t1 st1]| |] eqn:E;
    [|vm_compute in E; discriminate..].
  destruct (use_after_free demo_state demo_texture t1 st1 H2 H2
              ltac:(simpl; lia) E) as (H1 & H3 & H4).
  exists t1, st1. split; [reflexivity|].
  assert (writable st1 "t.csv" = true) as Hwr.
  { vm_compute in E. inversion E. reflexivity. }
  split; [|split].
  - rewrite H1, Hwr. reflexivity.
  - rewrite H3, Hwr. reflexivity.
  - apply H4. discriminate.
Defined.

Lemma freeTexture_alloc_block st a b cells bytes :
  freeTexture (mkTexture a b (Ptr (length (heap st)))) (alloc_block cells bytes st) =
  Ok (mkTexture a b NULL,
      set_heap (heap st ++ [None])
               (avail st - bytes + sizeof_uint32 * Z.of_nat (length cells)) st).
Proof.
  rewrite freeTexture_run. cbn [w h data]. rewrite block_alloc_block.
  unfold alloc_block, set_heap. simpl.
  rewrite insert_app_r_alt by lia. now rewrite Nat.sub_diag.
Qed.

(** X11: A populating operation followed by freeTexture gives back exactly the
    memory it took: the free memory is what it was before the operation,
    the block is gone, the files are untouched. *)
Theorem populate_free_balance st w0 h0 :
  is_uint16 w0 -> is_uint16 h0 ->
  (forall (data0 : list Z) t st1,
     initTexture_i w0 h0 data0 st = Ok (t, st1) ->
     exists st2,
       freeTexture t st1 = Ok (mkTexture w0 h0 NULL, st2) /\
       avail st2 = avail st /\ heap st2 = heap st ++ [None] /\
       files st2 = files st) /\
  (forall (data0 : list float) t st1,
     initTexture_f w0 h0 data0 st = Ok (t, st1) ->
     exists st2,
       freeTexture t st1 = Ok (mkTexture w0 h0 NULL, st2) /\
       avail st2 = avail st /\ heap st2 = heap st ++ [None] /\
       files st2 = files st) /\
  (forall t0 path t st1,
     w t0 = w0 -> h t0 = h0 ->
     readTexture t0 path st = Ok (t, st1) ->
     exists st2,
       freeTexture t st1 = Ok (mkTexture (w t) (h t) NULL, st2) /\
       avail st2 = avail st /\ heap st2 = heap st ++ [None] /\
       files st2 = files st).
Proof.
  intros Hw Hh.
  assert (0 <= w0 * h0) as Hnn by (apply Z.mul_nonneg_nonneg; [apply Hw | apply Hh]).
  split; [|split].
  - intros data0 t st1 E.
    destruct (initTexture_i_returns _ _ _ _ _ _ Hw Hh E) as (-> & Hfit & Hlen & ->).
    rewrite freeTexture_alloc_block. eexists. split; [reflexivity|].
    cbn [avail heap files set_heap]. split; [|split; reflexivity].
    rewrite length_map, length_take. unfold sizeof_uint32. lia.
  - intros data0 t st1 E.
    destruct (initTexture_f_returns _ _ _ _ _ _ Hw Hh E)
      as (-> & Hfit & cells & -> & Hlen & _).
    rewrite freeTexture_alloc_block. eexists. split; [reflexivity|].
    cbn [avail heap files set_heap]. split; [|split; reflexivity].
    rewrite Hlen. unfold sizeof_uint32. lia.
  - intros t0 path t st1 <- <- E.
    destruct (readTexture_returns _ _ _ _ _ Hw Hh E)
      as (cells & Hd & -> & Hpop & Hfit & _).
    destruct Hpop as (Hw1 & Hh1 & _ & Hlen & _).
    destruct t as [w1 h1 p]. cbn [w h data] in *. subst p.
    rewrite freeTexture_alloc_block. eexists. split; [reflexivity|].
    cbn [avail heap files set_heap]. split; [|split; reflexivity].
    unfold sizeof_uint32. lia.
Qed.

Lemma populate_free_balance_witness :
  exists t st1 st2,
    initTexture_i 2 2 demo_cells (fresh_state 64) = Ok (t, st1) /\
    avail st1 = 48 /\
    freeTexture t st1 = Ok (mkTexture 2 2 NULL, st2) /\
    avail st2 = 64.
Proof.
  assert (is_uint16 2) as H2 by (unfold is_uint16, UINT16_MAX; lia).
  destruct (initTexture_i 2 2 demo_cells (fresh_state 64)) as [[t st1]| |] eqn:E;
    [|vm_compute in E; discriminate..].
  destruct (populate_free_balance (fresh_state 64) 2 2 H2 H2) as [Hi _].
  destruct (Hi demo_cells t st1 E) as (st2 & Ef & Hav & _).
  exists t, st1, st2. split; [reflexivity|].
  split; [vm_compute in E; inversion E; reflexivity|].
  split; [exact Ef | exact Hav].
Defined.

(** ** Compositions *)

Lemma record_fields_uint32 contents fw fh fds tail :
  record_fields contents fw fh fds tail ->
  Forall is_uint32 (map dec_value fds).
Proof.
  intros (_ & _ & _ & Hdec & _ & _ & _ & Hmax).
  apply Forall_map, Forall_forall. intros f Hf.
  rewrite Forall_forall in Hdec, Hmax.
  split; [|apply Hmax, Hf].
  apply dec_value_from_nonneg; [lia | apply (Hdec f Hf)].
Qed.

(** X12: Reading a record and writing the texture back normalises the text:
    whatever the spelling of the fields (leading zeros) and whatever follows
    the last field, the file written is the record of the values in the
    writer's format, every field followed by a comma. *)
Theorem read_write_canonical st t path q contents fw fh fds tail :
  files st !! path = Some contents ->
  record_fields contents fw fh fds tail ->
  dec_value fw * dec_value fh = Z.of_nat (length fds) ->
  dec_value fw * dec_value fh <= INT_MAX ->
  can_alloc st (dec_value fw * dec_value fh * sizeof_uint32) = true ->
  writable st q = true ->
  exists t' st1 st2,
    readTexture t path st = Ok (t', st1) /\
    writeTexture t' q st1 = Ok (tt, st2) /\
    files st2 !! q =
      Some (csv_record (dec_value fw) (dec_value fh) (map dec_value fds)).
Proof.
  intros Hfile Hrec Hlen Hfit Hmem Hwr.
  pose proof (record_fields_uint32 _ _ _ _ _ Hrec) as Hcells.
  pose proof Hrec as (_ & Hfw & Hfh & _ & _ & Hw & Hh & _).
  pose proof (dec_value_uint16 _ Hfw Hw) as Hw16.
  pose proof (dec_value_uint16 _ Hfh Hh) as Hh16.
  rewrite (readTexture_run _ _ _ _ _ _ _ _ Hfile Hrec) by lia.
  rewrite Hmem. destruct (Z.ltb_spec INT_MAX (dec_value fw * dec_value fh)); [lia|].
  rewrite take_ge by lia.
  eexists _, _, _. split; [reflexivity|].
  erewrite writeTexture_run.
  2: { unfold populated. cbn [w h data]. rewrite block_alloc_block.
       split; [exact Hw16|]. split; [exact Hh16|]. split; [reflexivity|].
       split; [rewrite length_map; lia | exact Hcells]. }
  cbn [w h data writable alloc_block set_heap]. rewrite Hwr.
  destruct (Z.ltb_spec INT_MAX (dec_value fw * dec_value fh)); [lia|].
  split; [reflexivity|]. cbn [files set_files]. apply lookup_insert_eq.
Qed.

Lemma read_write_canonical_witness :
  exists t' st1 st2,
    readTexture (mkTexture 0 0 NULL) "in.csv"
      (set_files {[ "in.csv"%string := list_ascii_of_string "002,1,07,9" ]}
                 (fresh_state 64)) = Ok (t', st1) /\
    writeTexture t' "out.csv" st1 = Ok (tt, st2) /\
    files st2 !! "out.csv"%string = Some (list_ascii_of_string "2,1,7,9,").
Proof.
  refine (read_write_canonical
            (set_files {[ "in.csv"%string := list_ascii_of_string "002,1,07,9" ]}
                       (fresh_state 64))
            (mkTexture 0 0 NULL) "in.csv" "out.csv"
            (list_ascii_of_string "002,1,07,9")
            (list_ascii_of_string "002") (list_ascii_of_string "1")
            [list_ascii_of_string "07"; list_ascii_of_string "9"] []
            eq_refl _ eq_refl _ eq_refl eq_refl).
  - unfold record_fields, decimal_field.
    repeat (split; [first [reflexivity | discriminate | exact I
                          | (repeat constructor; discriminate)
                          | (vm_compute; discriminate)] |]).
    repeat constructor; vm_compute; discriminate.
  - vm_compute. discriminate.
Defined.



(** ** When the process aborts *)









(** X15: writeTexture changes one file and nothing else: every other path
    holds what it held, and what the path held before the call has no
    influence on what it holds after. *)
Theorem writeTexture_only_path st t cells path :
  populated st t cells ->
  forall st', writeTexture t path st = Ok (tt, st') ->
    (forall q, q <> path -> files st' !! q = files st !! q) /\
    (forall old,
       writeTexture t path (set_files (<[path := old]> (files st)) st) =
       Ok (tt, st')).
Proof.
  intros Hpop st' E. pose proof E as E0.
  rewrite (writeTexture_run _ _ path _ Hpop) in E.
  destruct (writable st path) eqn:Hwr; [|discriminate].
  destruct (INT_MAX <? w t * h t) eqn:Hfit; [discriminate|].
  inversion E; subst st'; clear E. split.
  - intros q Hq. cbn [files set_files]. now apply lookup_insert_ne.
  - intros old.
    assert (populated (set_files (<[path := old]> (files st)) st) t cells) as Hpop'
      by exact Hpop.
    rewrite (writeTexture_run _ _ path _ Hpop'), Hfit.
    cbn [writable files set_files]. rewrite Hwr.
    now rewrite insert_insert_eq.
Qed.

Lemma writeTexture_only_path_witness :
  exists st',
    writeTexture demo_texture "t.csv"
      (set_files {[ "u.csv"%string := list_ascii_of_string "1,1,5," ]} demo_state)
      = Ok (tt, st') /\
    files st' !! "u.csv"%string = Some (list_ascii_of_string "1,1,5,").
Proof.
  destruct (writeTexture demo_texture "t.csv"
              (set_files {[ "u.csv"%string := list_ascii_of_string "1,1,5," ]}
                         demo_state)) as [[[] st']| |] eqn:E;
    [|vm_compute in E; discriminate..].
  exists st'. split; [reflexivity|].
  assert (populated
            (set_files {[ "u.csv"%string := list_ascii_of_string "1,1,5," ]} demo_state)
            demo_texture demo_cells) as Hpop.
  { unfold populated, is_uint16, UINT16_MAX. simpl.
    repeat split; try lia.
    repeat constructor; unfold UINT32_MAX; lia. }
  destruct (writeTexture_only_path _ demo_texture demo_cells "t.csv" Hpop st' E)
    as [Hother _].
  rewrite (Hother "u.csv"%string) by discriminate. reflexivity.
Defined.

(** ** The size of the file *)

Lemma dec_aux_length fuel : forall n acc (k : nat),
  0 <= n < 10 ^ Z.of_nat k -> (1 <= k)%nat ->
  (length (dec_aux fuel n acc) <= k + length acc)%nat.
Proof.
  induction fuel as [|fuel IH]; intros n acc k Hn Hk; simpl; [lia|].
  destruct (Z.ltb_spec n 10) as [Hlt | Hge]; [simpl; lia|].
  destruct k as [|[|k]]; [lia | simpl in Hn; lia |].
  specialize (IH (n / 10) (digit_char (n mod 10) :: acc) (S k)).
  simpl length in IH. etransitivity; [apply IH|]; [|lia|lia].
  split; [apply Z.div_pos; lia|].
  apply Z.div_lt_upper_bound; [lia|].
  rewrite (Nat2Z.inj_succ (S k)), Z.pow_succ_r in Hn by lia. lia.
Qed.

Lemma print_uint_length n (k : nat) :
  0 <= n < 10 ^ Z.of_nat k -> (1 <= k)%nat ->
  (1 <= length (print_uint n) <= k)%nat.
Proof.
  intros Hn Hk. split.
  - pose proof (dec_aux_nonempty (Z.to_nat (Z.log2 n)) n []) as Hne.
    fold (print_uint n) in Hne. destruct (print_uint n); [congruence | simpl; lia].
  - pose proof (dec_aux_length (S (Z.to_nat (Z.log2 n))) n [] k Hn Hk) as H.
    change (length (@nil ascii)) with 0%nat in H. unfold print_uint. lia.
Qed.

Lemma csv_cells_length cells :
  Forall is_uint32 cells ->
  (2 * length cells <=
   length (flat_map (fun v => print_uint v ++ [comma]) cells) <=
   11 * length cells)%nat.
Proof.
  induction 1 as [|v cells Hv _ IH]; [simpl; lia|].
  cbn [flat_map]. rewrite !length_app. cbn [length].
  pose proof (print_uint_length v 10) as Hp.
  destruct Hp; [unfold is_uint32, UINT32_MAX in Hv; simpl; lia | lia | lia].
Qed.

(** X16: The file writeTexture leaves has between [4 + 2 * w * h] and
    [12 + 11 * w * h] characters: a field of the header has one to five
    digits, a data field one to ten, and each is followed by one comma. *)
Theorem writeTexture_file_size st t cells path :
  populated st t cells ->
  forall st', writeTexture t path st = Ok (tt, st') ->
    exists body,
      files st' !! path = Some body /\
      4 + 2 * (w t * h t) <= Z.of_nat (length body) <= 12 + 11 * (w t * h t).
Proof.
  intros Hpop st' E. rewrite (writeTexture_run _ _ path _ Hpop) in E.
  destruct (writable st path); [|discriminate].
  destruct (INT_MAX <? w t * h t); [discriminate|].
  inversion E; subst st'; clear E.
  destruct Hpop as (Hw & Hh & _ & Hlen & Hcells).
  eexists. split; [cbn [files set_files]; apply lookup_insert_eq|].
  unfold csv_record, csv_fields. cbn [flat_map map].
  rewrite flat_map_map, !length_app. cbn [length].
  pose proof (csv_cells_length cells Hcells) as Hc.
  pose proof (print_uint_length (w t) 5) as Hpw.
  pose proof (print_uint_length (h t) 5) as Hph.
  destruct Hpw; [unfold is_uint16, UINT16_MAX in Hw; simpl; lia | lia |].
  destruct Hph; [unfold is_uint16, UINT16_MAX in Hh; simpl; lia | lia |].
  lia.
Qed.

Lemma writeTexture_file_size_witness :
  exists st' body,
    writeTexture demo_texture "t.csv" demo_state = Ok (tt, st') /\
    files st' !! "t.csv"%string = Some body /\
    12 <= Z.of_nat (length body) <= 56.
Proof.
  destruct (writeTexture demo_texture "t.csv" demo_state) as [[[] st']| |] eqn:E;
    [|vm_compute in E; discriminate..].
  destruct (writeTexture_file_size demo_state demo_texture demo_cells "t.csv"
              demo_populated st' E) as (body & Hb & Hsize).
  exists st', body. split; [reflexivity|]. split; [exact Hb | exact Hsize].
Defined.
